(** * The zip-to-weather services, embedded and verified

    Two HTTP programs are modelled here, function by function:

    - the gateway, [cmd/service-a/main.go]: [getTempFromZip],
      [validateZip] and [getTempFromLocal];
    - the resolver, the second [package main] of the repository:
      [getTemp], [getLocation] and [getTempFromAPI].

    Go values are modelled as the programs have them: a [string] is a
    sequence of bytes, a [float64] is a binary64 float, an [error] is
    its message and [nil] is [None]; a function returning [(T, error)]
    returns a pair.  [http.Header] and [url.Values] are finite maps.
    Everything outside the two programs (the network, the JSON and URL
    libraries, the OpenTelemetry SDK) is described by what it hands
    back to the programs. *)

From Stdlib Require Import ZArith NArith String Ascii List Floats Lia Bool.
From stdpp Require Import base option gmap strings.
Import ListNotations.

Set Warnings "-inexact-float,-register-all".
Open Scope string_scope.

(** ** Go: errors, strings, regexp *)

Module Go.

(** An [error] value, by the text its [Error()] method returns. *)
Definition error : Type := string.

Definition errors_New (text : string) : error := text.

(** [\d] of package [regexp]: the ASCII digits, and nothing else. *)
Definition isDigit (c : ascii) : bool :=
  (48 <=? nat_of_ascii c)%nat && (nat_of_ascii c <=? 57)%nat.

(** [regexp.MustCompile(`\d+`).FindAllString(s, -1)]: the successive
    maximal runs of digits of [s], left to right.  [run] is the run
    being read. *)
Fixpoint digitRuns (run : string) (s : string) : list string :=
  match s with
  | EmptyString =>
      match run with
      | EmptyString => []
      | _ => [run]
      end
  | String c rest =>
      if isDigit c then digitRuns (run ++ String c EmptyString) rest
      else match run with
           | EmptyString => digitRuns EmptyString rest
           | _ => run :: digitRuns EmptyString rest
           end
  end.

Definition FindAllString_digits (s : string) : list string :=
  digitRuns EmptyString s.

(** [strings.Join(elems, sep)]. *)
Definition strings_Join (elems : list string) (sep : string) : string :=
  String.concat sep elems.

(** [len(s)]: the number of bytes. *)
Definition len (s : string) : nat := String.length s.

(** The digits of [s], in order. *)
Fixpoint digitsOf (s : string) : string :=
  match s with
  | EmptyString => EmptyString
  | String c rest =>
      if isDigit c then String c (digitsOf rest) else digitsOf rest
  end.

(** How many of the characters of [s] are digits. *)
Fixpoint countDigits (s : string) : nat :=
  match s with
  | EmptyString => O
  | String c rest => ((if isDigit c then 1 else 0) + countDigits rest)%nat
  end.

Fixpoint allDigits (s : string) : bool :=
  match s with
  | EmptyString => true
  | String c rest => isDigit c && allDigits rest
  end.

End Go.

(** ** The two structs both programs declare *)

Module Structs.

Record CEP := mkCEP { CEP_ : string }.

Record Response := mkResponse {
  City : string;
  TempC : float;
  TempF : float;
  TempK : float }.

(** [Response{}]. *)
Definition Response_zero : Response :=
  {| City := ""; TempC := 0; TempF := 0; TempK := 0 |}.

End Structs.

(** ** Go: net/http and net/url, as far as the handlers use them *)

Module Http.
Import Go Structs.

Definition StatusOK : Z := 200.
Definition StatusBadRequest : Z := 400.
Definition StatusMethodNotAllowed : Z := 405.
Definition StatusUnprocessableEntity : Z := 422.

(** [http.Header] and [url.Values], by the first value of each key.
    Header names are the canonical ones: [Get], [Set] and [Add] all
    canonicalise their argument the same way, so a name stands for
    its canonical form. *)
Definition Header_Get (h : gmap string string) (key : string) : string :=
  default "" (h !! key).

Definition Header_Set (h : gmap string string) (key value : string) : gmap string string :=
  <[key := value]> h.

(** [Add] appends; the first value stays the one [Get] returns. *)
Definition Header_Add (h : gmap string string) (key value : string) : gmap string string :=
  match h !! key with
  | Some _ => h
  | None => <[key := value]> h
  end.

Definition Values_Get (q : gmap string string) (key : string) : string :=
  default "" (q !! key).

Definition Values_Set (q : gmap string string) (key value : string) : gmap string string :=
  <[key := value]> q.

(** A request: [B] is what the receiving program makes of the body. *)
Record Request (B : Type) := mkRequest {
  Method : string;
  URL : string;
  Query : gmap string string;
  Header : gmap string string;
  Body : B }.
Arguments mkRequest {B}.
Arguments Method {B}.
Arguments URL {B}.
Arguments Query {B}.
Arguments Header {B}.
Arguments Body {B}.

(** What a handler has written to its [http.ResponseWriter]. *)
Inductive Output :=
| Text (s : string)
| Document (res : Response)
| NoBody.

Record Written := mkWritten {
  Status : Z;
  ContentType : string;
  Payload : Output }.

Definition LF : string := String (ascii_of_nat 10) EmptyString.

(** [http.Error(w, msg, code)]. *)
Definition http_Error (msg : string) (code : Z) : Written :=
  {| Status := code;
     ContentType := "text/plain; charset=utf-8";
     Payload := Text (msg ++ LF) |}.

(** [json.NewEncoder(w).Encode(res)]: encoding/json refuses NaN and the
    infinities, and then writes nothing. *)
Definition json_Encode (res : Response) : Output :=
  if PrimFloat.is_finite (TempC res) && PrimFloat.is_finite (TempF res)
     && PrimFloat.is_finite (TempK res)
  then Document res else NoBody.

(** [fmt.Sprintf(format, arg)] for a format with the verb [%s]. *)
Fixpoint Sprintf (format : string) (arg : string) : string :=
  match format with
  | EmptyString => EmptyString
  | String c rest =>
      match rest with
      | String d rest' =>
          if Ascii.eqb c "%" && Ascii.eqb d "s" then arg ++ rest'
          else String c (Sprintf rest arg)
      | EmptyString => String c EmptyString
      end
  end.

End Http.

(** ** fastjson: values and lookups by key path *)

Module Fastjson.
Import Go.

Inductive Value :=
| Null
| Bool (b : bool)
| Number (f : float)
| Str (s : string)
| Array (a : list Value)
| Object (kvs : list (string * Value)).

(** Bytes read from a body, by what [Parser.Parse] makes of them. *)
Inductive Bytes :=
| NotJSON (err : error)
| JSON (v : Value).

Definition Parse (data : Bytes) : error + Value :=
  match data with
  | NotJSON err => inl err
  | JSON v => inr v
  end.

(** [Object.Get]: the first pair with that key. *)
Fixpoint Object_Get (kvs : list (string * Value)) (key : string) : option Value :=
  match kvs with
  | [] => None
  | (k, v) :: rest => if String.eqb k key then Some v else Object_Get rest key
  end.

(** [strconv.Atoi] on an index: a run of digits, with an optional sign. *)
Fixpoint digitsValue (acc : Z) (s : string) : option Z :=
  match s with
  | EmptyString => Some acc
  | String c rest =>
      if isDigit c
      then digitsValue (acc * 10 + (Z.of_nat (nat_of_ascii c) - 48)) rest
      else None
  end.

Definition Atoi (s : string) : option Z :=
  match s with
  | EmptyString => None
  | String c rest =>
      if Ascii.eqb c "-" then
        match rest with
        | EmptyString => None
        | _ => Z.opp <$> digitsValue 0 rest
        end
      else if Ascii.eqb c "+" then
        match rest with
        | EmptyString => None
        | _ => digitsValue 0 rest
        end
      else digitsValue 0 s
  end.

(** [Value.Get(keys...)]: objects by key, arrays by decimal index,
    anything else has nothing below it. *)
Fixpoint Get (v : Value) (keys : list string) : option Value :=
  match keys with
  | [] => Some v
  | key :: rest =>
      match v with
      | Object kvs =>
          match Object_Get kvs key with
          | Some v' => Get v' rest
          | None => None
          end
      | Array a =>
          match Atoi key with
          | Some n =>
              if (n <? 0)%Z then None
              else match a !! Z.to_nat n with
                   | Some v' => Get v' rest
                   | None => None
                   end
          | None => None
          end
      | _ => None
      end
  end.

(** [Value.GetFloat64(keys...)]: 0 when the path is absent or does not
    hold a number. *)
Definition GetFloat64 (v : Value) (keys : list string) : float :=
  match Get v keys with
  | Some (Number f) => f
  | _ => 0%float
  end.

(** [fastjson.GetString(data, keys...)]: the empty string when the data
    does not parse, the path is absent or does not hold a string. *)
Definition GetString (data : Bytes) (keys : list string) : string :=
  match Parse data with
  | inl _ => ""
  | inr v =>
      match Get v keys with
      | Some (Str s) => s
      | _ => ""
      end
  end.

(** A response body, by what [io.ReadAll] makes of it. *)
Inductive Stream :=
| Broken (err : error)
| Complete (data : Bytes).

Definition ReadAll (body : Stream) : error + Bytes :=
  match body with
  | Broken err => inl err
  | Complete data => inr data
  end.

End Fastjson.

(** ** OpenTelemetry: span contexts, the W3C propagator, the tracer

    The SDK is not part of the repository.  It is modelled as the
    programs configure it in [initProvider]: the [TraceContext]
    propagator of the W3C recommendation, and a tracer provider that
    samples every span. *)

Module Otel.
Import Go Http.

Record SpanContext := mkSpanContext {
  TraceID : N;
  SpanID : N;
  Sampled : bool;
  Remote : bool }.

Definition IsValid (sc : SpanContext) : bool :=
  negb (TraceID sc =? 0)%N && negb (SpanID sc =? 0)%N.

(** What a [context.Context] carries of the current span;
    [context.Background()] carries none. *)
Definition Context : Type := option SpanContext.

Definition Background : Context := None.

Record Span := mkSpan {
  Name : string;
  SC : SpanContext;
  Parent : Context }.

(** *** The [traceparent] header

    [00-<32 hex digits>-<16 hex digits>-<2 hex digits>], lower case. *)

Definition hexDigit (d : N) : ascii :=
  nth (N.to_nat d) (list_ascii_of_string "0123456789abcdef") "0"%char.

Fixpoint hex (width : nat) (n : N) : string :=
  match width with
  | O => EmptyString
  | S w => hex w (n / 16)%N ++ String (hexDigit (n mod 16)%N) EmptyString
  end.

Definition hexValue (c : ascii) : option N :=
  let n := N_of_ascii c in
  if (48 <=? n)%N && (n <=? 57)%N then Some (n - 48)%N
  else if (97 <=? n)%N && (n <=? 102)%N then Some (n - 87)%N
  else None.

Fixpoint unhex (acc : N) (s : string) : option N :=
  match s with
  | EmptyString => Some acc
  | String c rest =>
      match hexValue c with
      | Some d => unhex (acc * 16 + d)%N rest
      | None => None
      end
  end.

(** A part of the header: exactly [width] lower-case hex digits. *)
Definition part (width : nat) (s : string) : option N :=
  if (String.length s =? width)%nat then unhex 0 s else None.

(** [strings.Cut(s, "-")], repeated: the fields between dashes. *)
Fixpoint fields (cur : string) (s : string) : list string :=
  match s with
  | EmptyString => [cur]
  | String c rest =>
      if Ascii.eqb c "-" then cur :: fields EmptyString rest
      else fields (cur ++ String c EmptyString) rest
  end.

Definition traceparent (sc : SpanContext) : string :=
  "00-" ++ hex 32 (TraceID sc) ++ "-" ++ hex 16 (SpanID sc) ++ "-"
        ++ hex 2 (if Sampled sc then 1 else 0)%N.

(** What is left of the header once the flags and the dash after them,
    if any, are cut off is empty: nothing follows the flags, or one dash
    and nothing else. *)
Definition nothingLeft (extra : list string) : bool :=
  match extra with
  | [] => true
  | [EmptyString] => true
  | _ => false
  end.

Definition parseTraceparent (h : string) : option SpanContext :=
  match fields EmptyString h with
  | ver :: tid :: sid :: opts :: extra =>
      match part 2 ver, part 32 tid, part 16 sid, part 2 opts with
      | Some version, Some t, Some s, Some o =>
          if (version =? 255)%N then None
          else if (version =? 0)%N
                  && (negb (nothingLeft extra) || (2 <? o)%N)
          then None
          else
            let sc := {| TraceID := t; SpanID := s;
                         Sampled := N.odd o; Remote := true |} in
            if IsValid sc then Some sc else None
      | _, _, _, _ => None
      end
  | _ => None
  end.

(** [propagation.TraceContext{}.Inject(ctx, carrier)]. *)
Definition Inject (ctx : Context) (carrier : gmap string string) : gmap string string :=
  match ctx with
  | Some sc =>
      if IsValid sc then Header_Set carrier "traceparent" (traceparent sc)
      else carrier
  | None => carrier
  end.

(** [propagation.TraceContext{}.Extract(ctx, carrier)]. *)
Definition Extract (ctx : Context) (carrier : gmap string string) : Context :=
  match parseTraceparent (Header_Get carrier "traceparent") with
  | Some sc => Some sc
  | None => ctx
  end.

(** *** One process

    The state a handler runs in: the supply of identifiers of the
    tracer provider, the spans ended so far (handed to the exporter),
    and the requests sent on the network so far, oldest first. *)
Record Proc := mkProc {
  nextID : N;
  exported : list Span;
  wire : list (Request unit) }.

Definition M (A : Type) : Type := Proc -> A * Proc.

Definition ret {A : Type} (a : A) : M A := fun p => (a, p).

Definition bind {A B : Type} (m : M A) (k : A -> M B) : M B :=
  fun p => let (a, p') := m p in k a p'.

(** Identifiers never repeat within a process and are never zero. *)
Definition newID : M N :=
  fun p =>
    let id := N.succ (nextID p) in
    (id, {| nextID := id; exported := exported p; wire := wire p |}).

(** [tracer.Start(ctx, name)] under [AlwaysSample]: a child of the span
    context [ctx] carries when that one is valid, a root of a new trace
    otherwise. *)
Definition Start (ctx : Context) (name : string) : M (Context * Span) :=
  bind (match ctx with
        | Some psc => if IsValid psc then ret (TraceID psc) else newID
        | None => newID
        end)
    (fun tid =>
       bind newID (fun sid =>
         let sc := {| TraceID := tid; SpanID := sid;
                      Sampled := true; Remote := false |} in
         ret (Some sc, {| Name := name; SC := sc; Parent := ctx |}))).

(** [span.End()]. *)
Definition End (span : Span) : M unit :=
  fun p => (tt, {| nextID := nextID p;
                   exported := exported p ++ [span];
                   wire := wire p |}).

(** [defer f()] around the rest of a function body. *)
Definition deferred {A : Type} (f : M unit) (body : M A) : M A :=
  bind body (fun a => bind f (fun _ => ret a)).

(** [client.Do(req)]: the request goes out, the network answers. *)
Definition client_Do {R : Type} (network : Request unit -> R) (req : Request unit) : M R :=
  fun p => (network req,
            {| nextID := nextID p;
               exported := exported p;
               wire := wire p ++ [req] |}).

End Otel.

#[global] Instance M_ret : MRet Otel.M := @Otel.ret.
#[global] Instance M_bind : MBind Otel.M := fun A B k m => Otel.bind m k.

(** ** The gateway: [cmd/service-a/main.go] *)

Module ServiceA.
Import Go Structs Http Otel.

Definition CEP_SIZE : nat := 8.

(** The resolver's answer, by its status and by what
    [json.NewDecoder(res.Body).Decode(&rr)] leaves in a zero [rr]
    together with the error it returns. *)
Record Reply := mkReply {
  StatusCode : Z;
  Decoded : Response * option error }.

(** What is outside the program: [url.Parse], [http.NewRequest] (method,
    URL, query) and the network behind [client.Do]. *)
Record Env := mkEnv {
  url_Parse : string -> option error;
  http_NewRequest : string -> string -> gmap string string -> option error;
  Do : Request unit -> error + Reply }.

Definition validateZip (zip : string) : string * option error :=
  let match_ := FindAllString_digits zip in
  let zip := strings_Join match_ "" in
  if negb (len zip =? CEP_SIZE)%nat
  then ("", Some (errors_New "invalid zipcode"))
  else (zip, None).

Definition getTempFromLocal (env : Env) (zip apiKey : string)
  : M (Response * option error) :=
  let baseURL := "http://service-b:8081" in
  match url_Parse env baseURL with
  | Some err => ret (Response_zero, Some err)
  | None =>
      let q := Values_Set ∅ "zip" zip in
      match http_NewRequest env "GET" baseURL q with
      | Some err => ret (Response_zero, Some err)
      | None =>
          let header := Header_Add ∅ "api_key" apiKey in
          '(ctx, span) ← Start Background "outgoing request to service-b";
          deferred (End span)
            (let header := Inject ctx header in
             let req := mkRequest "GET" baseURL q header tt in
             r ← client_Do (Do env) req;
             match r with
             | inl e =>
                 let err : option error := Some e in
                 ret (Response_zero, err)
             | inr res =>
                 let err : option error := None in
                 if negb (StatusCode res =? StatusOK)%Z
                 then ret (Response_zero, err)
                 else
                   let '(rr, err) := Decoded res in
                   ret (rr, None)
             end)
      end
  end.

(** The body of the inbound request is what
    [json.NewDecoder(r.Body).Decode(&zip)] leaves in a zero [CEP]
    together with the error it returns. *)
Definition getTempFromZip (env : Env) (r : Request (CEP * option error)) : M Written :=
  let carrier := Header r in
  let ctx := Extract Background carrier in
  '(ctx, span) ← Start ctx "service-a";
  deferred (End span)
    (if negb (String.eqb (Method r) "POST")
     then ret (http_Error "Method not allowed" StatusMethodNotAllowed)
     else
       let '(zip, err) := Body r in
       match err with
       | Some e => ret (http_Error e StatusBadRequest)
       | None =>
           let apiKey := Header_Get (Header r) "api_key" in
           if String.eqb apiKey ""
           then ret (http_Error "api_key is required" StatusBadRequest)
           else
             let '(cep, err) := validateZip (CEP_ zip) in
             match err with
             | Some e => ret (http_Error e StatusUnprocessableEntity)
             | None =>
                 '(res, err) ← getTempFromLocal env cep apiKey;
                 match err with
                 | Some e => ret (http_Error e StatusBadRequest)
                 | None =>
                     ret {| Status := StatusOK;
                            ContentType := "application/json";
                            Payload := json_Encode res |}
                 end
             end
       end).

End ServiceA.

(** ** The resolver: the second [package main] *)

Module ServiceB.
Import Go Structs Http Fastjson Otel.

Record http_Response := mkHttpResponse {
  StatusCode : Z;
  RespBody : Stream }.

Record Env := mkEnv {
  url_Parse : string -> option error;
  http_NewRequest : string -> string -> gmap string string -> option error;
  Do : Request unit -> error + http_Response }.

(** The request [getLocation] sends.  [URL] is the text handed to
    [http.NewRequestWithContext], with the raw [zip] in it: a [?] in
    [zip] and what follows it are part of that text.  [Query] holds what
    a program sets through [url.Values]; here it sets nothing. *)
Definition locationRequest (zip : string) : Request unit :=
  let baseURL := "http://viacep.com.br/ws/%s/json/" in
  let URL := Sprintf baseURL zip in
  mkRequest "GET" URL ∅ ∅ tt.

Definition getLocation (env : Env) (ctx : Context) (zip : string)
  : M (string * option error) :=
  let req := locationRequest zip in
  match http_NewRequest env "GET" (Http.URL req) ∅ with
  | Some err => ret ("", Some err)
  | None =>
      r ← client_Do (Do env) req;
      match r with
      | inl err => ret ("", Some err)
      | inr res =>
          match ReadAll (RespBody res) with
          | inl err => ret ("", Some err)
          | inr r =>
              let location := GetString r ["localidade"] in
              if String.eqb location ""
              then ret ("", Some (errors_New "can not find zipcode"))
              else ret (location, None)
          end
      end
  end.

(** The request [getTempFromAPI] sends. *)
Definition weatherRequest (location apiKey : string) : Request unit :=
  let baseURL := "http://api.weatherapi.com/v1/current.json" in
  let q := Values_Set (Values_Set ∅ "q" location) "key" apiKey in
  mkRequest "GET" baseURL q ∅ tt.

Definition getTempFromAPI (env : Env) (ctx : Context) (location apiKey : string)
  : M (Response * option error) :=
  let weather := Response_zero in
  let req := weatherRequest location apiKey in
  match url_Parse env (Http.URL req) with
  | Some err => ret (Response_zero, Some err)
  | None =>
      '(ctx, span) ← Start ctx "outgoing request to weatherapi";
      deferred (End span)
        (match http_NewRequest env "GET" (Http.URL req) (Query req) with
         | Some err => ret (Response_zero, Some err)
         | None =>
             r ← client_Do (Do env) req;
             match r with
             | inl err => ret (Response_zero, Some err)
             | inr res =>
                 match ReadAll (RespBody res) with
                 | inl err => ret (Response_zero, Some err)
                 | inr r =>
                     match Parse r with
                     | inl err => ret (Response_zero, Some err)
                     | inr v =>
                         let tempC := GetFloat64 v ["current"; "temp_c"] in
                         let tempF := GetFloat64 v ["current"; "temp_f"] in
                         let weather :=
                           {| City := City weather;
                              TempC := tempC;
                              TempF := tempF;
                              TempK := tempC + 273 |} in
                         if (TempC weather =? 0)%float
                         then ret (Response_zero,
                                   Some (errors_New "error getting weather, invalid API key"))
                         else ret (weather, None)
                     end
                 end
             end
         end)
  end.

Definition getTemp (env : Env) (r : Request unit) : M Written :=
  let carrier := Header r in
  let ctx := Extract Background carrier in
  '(ctx, span) ← Start ctx "service-b";
  deferred (End span)
    (if negb (String.eqb (Method r) "GET")
     then ret (http_Error "Method not allowed" StatusMethodNotAllowed)
     else
       let zip := Values_Get (Query r) "zip" in
       let apiKey := Header_Get (Header r) "api_key" in
       if String.eqb apiKey ""
       then ret (http_Error "api_key is required" StatusBadRequest)
       else
         '(location, err) ← getLocation env ctx zip;
         match err with
         | Some e => ret (http_Error e StatusBadRequest)
         | None =>
             '(res, err) ← getTempFromAPI env ctx location apiKey;
             match err with
             | Some e => ret (http_Error e StatusBadRequest)
             | None =>
                 let res := {| City := location; TempC := TempC res;
                               TempF := TempF res; TempK := TempK res |} in
                 ret {| Status := StatusOK;
                        ContentType := "application/json";
                        Payload := json_Encode res |}
             end
         end).

(** What a call comes to and what it sends, whatever the context and
    the process state it is made in (see [getLocation_run] and
    [getTempFromAPI_run]). *)
Definition idle : Proc := mkProc 0 [] [].

Definition located (env : Env) (zip : string) : string * option error :=
  fst (getLocation env Background zip idle).

Definition locationSent (env : Env) (zip : string) : list (Request unit) :=
  wire (snd (getLocation env Background zip idle)).

Definition fetched (env : Env) (location apiKey : string) : Response * option error :=
  fst (getTempFromAPI env Background location apiKey idle).

Definition weatherSent (env : Env) (location apiKey : string) : list (Request unit) :=
  wire (snd (getTempFromAPI env Background location apiKey idle)).

End ServiceB.

(** ** Concrete worlds and requests *)

Module Scenario.
Import Go Structs Http Fastjson Otel.

Definition p0 : Proc := mkProc 0 [] [].

(** A client's [POST] to the gateway: the decoded body and the key. *)
Definition post (cep apiKey : string) : Request (CEP * option error) :=
  mkRequest "POST" "/" ∅ (Header_Add ∅ "api_key" apiKey) (mkCEP cep, None).

(** The same client request, sent with another method. *)
Definition withMethod {B : Type} (method : string) (r : Request B) : Request B :=
  mkRequest method (URL r) (Query r) (Header r) (Body r).

(** A request that carries no [api_key] header. *)
Definition anonymous {B : Type} (method : string) (query : gmap string string) (body : B)
  : Request B :=
  mkRequest method "/" query ∅ body.

(** A gateway whose peer answers every call with [reply]. *)
Definition peerAnswers (reply : ServiceA.Reply) : ServiceA.Env :=
  ServiceA.mkEnv (fun _ => None) (fun _ _ _ => None) (fun _ => inr reply).

(** A gateway whose peer cannot be reached. *)
Definition peerDown : ServiceA.Env :=
  ServiceA.mkEnv (fun _ => None) (fun _ _ _ => None)
    (fun _ => inl "dial tcp: connection refused").

(** The resolver's 400, as the gateway's decoder would see its text. *)
Definition reply400 : ServiceA.Reply :=
  ServiceA.mkReply 400
    (Response_zero, Some "invalid character 'c' looking for beginning of value").

(** A 200 whose body is not the aggregated JSON document. *)
Definition replyGarbled : ServiceA.Reply :=
  ServiceA.mkReply 200
    ({| City := "Curitiba"; TempC := 0; TempF := 0; TempK := 0 |},
     Some "json: cannot unmarshal string into Go struct field Response.temp_C of type float64").

(** A resolver's [GET /?zip=...] with a key. *)
Definition get (zip apiKey : string) : Request unit :=
  mkRequest "GET" "/" (Values_Set ∅ "zip" zip) (Header_Add ∅ "api_key" apiKey) tt.

(** A world for the resolver: the directory knows the postal codes of
    [directory], the weather provider answers with [weather]. *)
Definition world (directory : list (string * string)) (weather : Value) : ServiceB.Env :=
  ServiceB.mkEnv (fun _ => None) (fun _ _ _ => None)
    (fun req =>
       if String.prefix "http://viacep.com.br/ws/" (URL req)
       then
         match find (fun kv => String.eqb (URL req) (URL (ServiceB.locationRequest (fst kv))))
                    directory with
         | Some (zip, city) =>
             inr (ServiceB.mkHttpResponse 200
                    (Complete (JSON (Object [("cep", Str zip); ("localidade", Str city)]))))
         | None =>
             inr (ServiceB.mkHttpResponse 200
                    (Complete (JSON (Object [("erro", Str "true")]))))
         end
       else inr (ServiceB.mkHttpResponse 200 (Complete (JSON weather)))).

Definition saoPaulo : list (string * string) := [("01001000", "Sao Paulo")].

(** The resolver's process, as the gateway's peer. *)
Definition resolverProc : Proc := mkProc 100 [] [].

(** A gateway whose peer is the resolver itself, running in [world]:
    the forwarded request is handled by [getTemp], and its answer comes
    back with the status written and with the document written, which
    the gateway's decoder reads back as it is; any other body is one the
    decoder rejects. *)
Definition resolverBehind (world : ServiceB.Env) : ServiceA.Env :=
  ServiceA.mkEnv (fun _ => None) (fun _ _ _ => None)
    (fun req =>
       let w := fst (ServiceB.getTemp world req resolverProc) in
       inr (ServiceA.mkReply (Status w)
              match Payload w with
              | Document res => (res, None)
              | Text _ =>
                  (Response_zero, Some "invalid character looking for beginning of value")
              | NoBody => (Response_zero, Some "EOF")
              end)).

(** The provider reports both scales, each rounded to one decimal. *)
Definition mild : Value :=
  Object [("current", Object [("temp_c", Number 22.3); ("temp_f", Number 72.1)])].

(** 25 degrees Celsius, reported as 77 degrees Fahrenheit. *)
Definition warm : Value :=
  Object [("current", Object [("temp_c", Number 25); ("temp_f", Number 77)])].

(** A reading of exactly 0 degrees Celsius. *)
Definition freezing : Value :=
  Object [("current", Object [("temp_c", Number 0); ("temp_f", Number 32)])].

End Scenario.

(** ** Variations on a world or a request *)

Module Variants.
Import Go Structs Http Fastjson Otel.

(** The same world, with the status of every answer replaced by [f] of it. *)
Definition restatus (f : Z -> Z) (env : ServiceB.Env) : ServiceB.Env :=
  ServiceB.mkEnv (ServiceB.url_Parse env) (ServiceB.http_NewRequest env)
    (fun req =>
       match ServiceB.Do env req with
       | inl e => inl e
       | inr res => inr (ServiceB.mkHttpResponse (f (ServiceB.StatusCode res))
                           (ServiceB.RespBody res))
       end).

(** A [POST] whose body ends before the document does: what the decoder
    leaves and the error it returns. *)
Definition truncated (apiKey : string) : Request (CEP * option error) :=
  mkRequest "POST" "/" ∅ (Header_Add ∅ "api_key" apiKey)
    (mkCEP "", Some "unexpected EOF").

(** The request the gateway forwards for [zip] and [apiKey] around a
    span of trace [tid] and identifier [sid]. *)
Definition forwarded (zip apiKey : string) (tid sid : N) : Request unit :=
  mkRequest "GET" "http://service-b:8081" (Values_Set ∅ "zip" zip)
    (Inject (Some (mkSpanContext tid sid true false)) (Header_Add ∅ "api_key" apiKey)) tt.

(** A client's [POST] to the gateway, sent from inside a span of trace
    [tid] and identifier [sid]. *)
Definition traced (cep apiKey : string) (tid sid : N) : Request (CEP * option error) :=
  mkRequest "POST" "/" ∅
    (Inject (Some (mkSpanContext tid sid true false)) (Header_Add ∅ "api_key" apiKey))
    (mkCEP cep, None).

End Variants.

(** * Proofs *)

Section Validator.
Import Go ServiceA.

Lemma append_cons (c : ascii) (s t : string) :
  (String c s ++ t)%string = String c (s ++ t)%string.
Proof. reflexivity. Qed.

Lemma append_empty_r (s : string) : (s ++ "")%string = s.
Proof.
  induction s as [|c s IH]; [reflexivity |].
  now rewrite append_cons, IH.
Qed.

Lemma concat_empty_cons (x : string) (l : list string) :
  String.concat "" (x :: l) = (x ++ String.concat "" l)%string.
Proof.
  destruct l as [|y l]; simpl; [now rewrite append_empty_r | reflexivity].
Qed.

Lemma append_assoc_char (run : string) (c : ascii) (s : string) :
  ((run ++ String c EmptyString) ++ s = run ++ String c s)%string.
Proof.
  induction run as [|d run IH]; [reflexivity |].
  now rewrite !append_cons, IH.
Qed.

(** Joining the runs of digits gives back the digits, in order. *)
Lemma join_digitRuns (s run : string) :
  String.concat "" (digitRuns run s) = (run ++ digitsOf s)%string.
Proof.
  revert run. induction s as [|c s IH]; intros run; simpl.
  - destruct run; simpl; [reflexivity | now rewrite append_empty_r].
  - destruct (isDigit c).
    + rewrite IH. apply append_assoc_char.
    + destruct run as [|d run].
      * rewrite IH. reflexivity.
      * rewrite concat_empty_cons, IH. reflexivity.
Qed.

(** What [validateZip] joins at line 176 is the digits of its argument. *)
Lemma joined_matches (zip : string) :
  strings_Join (FindAllString_digits zip) "" = digitsOf zip.
Proof. unfold FindAllString_digits, strings_Join. apply join_digitRuns. Qed.

Lemma allDigits_digitsOf (s : string) : allDigits (digitsOf s) = true.
Proof.
  induction s as [|c s IH]; simpl; [reflexivity |].
  destruct (isDigit c) eqn:E; simpl; [rewrite E |]; exact IH.
Qed.

Lemma length_digitsOf (s : string) : String.length (digitsOf s) = countDigits s.
Proof.
  induction s as [|c s IH]; simpl; [reflexivity |].
  destruct (isDigit c); simpl; now rewrite IH.
Qed.

(** The two ways out of [validateZip]. *)
Lemma validateZip_cases (raw : string) :
  validateZip raw =
    if decide (countDigits raw = 8%nat)
    then (digitsOf raw, None)
    else ("", Some "invalid zipcode").
Proof.
  unfold validateZip. rewrite joined_matches.
  unfold len, CEP_SIZE, errors_New. rewrite length_digitsOf.
  destruct (Nat.eqb_spec (countDigits raw) 8);
    destruct (decide _); simpl; first [reflexivity | congruence].
Qed.

(** C3, as the code has it.  Whatever the input, the postal code
    [validateZip] normalises (the matches of [\d+], joined at line 176)
    is made of digits only and is as long as the input has digits;
    [validateZip] accepts exactly when the input has 8 digits, and only
    then returns that string; otherwise it returns the empty string with
    the error "invalid zipcode".  So the string returned is made of
    digits only, and has 8 characters or none. *)
Theorem validateZip_digits_and_length (raw : string) :
  let zip := strings_Join (FindAllString_digits raw) "" in
  allDigits zip = true
  /\ len zip = countDigits raw
  /\ (snd (validateZip raw) = None <-> countDigits raw = 8%nat)
  /\ validateZip raw =
       (if decide (countDigits raw = 8%nat)
        then (zip, None)
        else ("", Some "invalid zipcode"))
  /\ allDigits (fst (validateZip raw)) = true
  /\ len (fst (validateZip raw))
       = (if decide (countDigits raw = 8%nat) then 8 else 0)%nat.
Proof.
  cbv zeta. rewrite joined_matches, validateZip_cases.
  split; [apply allDigits_digitsOf |].
  split; [apply length_digitsOf |].
  split; [| split; [reflexivity | split]].
  - destruct (decide _); simpl; split; congruence.
  - destruct (decide _); simpl; [apply allDigits_digitsOf | reflexivity].
  - destruct (decide _) as [Hz|Hz]; simpl; [| reflexivity].
    unfold len. now rewrite length_digitsOf.
Qed.

(** C3 as stated fails: "123" has 3 digits and is rejected, and what
    [validateZip] returns for it is the empty string, of length 0. *)
Lemma rejected_zip_comes_back_empty :
  validateZip "123" = ("", Some "invalid zipcode")
  /\ countDigits "123" = 3%nat
  /\ len (fst (validateZip "123")) = 0%nat
  /\ len (fst (validateZip "123")) <> countDigits "123".
Proof. vm_compute. repeat split. discriminate. Qed.

End Validator.

(** ** Running the handlers: the tracer and the network log *)

Section Machinery.
Import Go Http Otel.

(** A span is always started: a child of a valid parent, a root otherwise.
    Starting it sends nothing and exports nothing. *)
Lemma Start_spec (ctx : Context) (name : string) (p : Proc) :
  exists tid id,
    let sc := {| TraceID := tid; SpanID := id; Sampled := true; Remote := false |} in
    Start ctx name p =
      ((Some sc, {| Name := name; SC := sc; Parent := ctx |}),
       {| nextID := id; exported := exported p; wire := wire p |})
    /\ (nextID p < id <= nextID p + 2)%N
    /\ tid = match ctx with
             | Some psc => if IsValid psc then TraceID psc else N.succ (nextID p)
             | None => N.succ (nextID p)
             end.
Proof.
  unfold Start, Otel.bind, Otel.ret, newID.
  destruct ctx as [psc|]; [destruct (IsValid psc)|]; simpl;
    eexists _, _; (split; [reflexivity | simpl; split; [lia | reflexivity]]).
Qed.

Lemma not_grown {A : Type} (l : list A) (x : A) : l = (l ++ [x])%list -> False.
Proof.
  intros H. apply (f_equal (@List.length A)) in H.
  rewrite List.length_app in H. simpl in H. lia.
Qed.

Lemma last_sent {A : Type} (l : list A) (x y : A) :
  (l ++ [x])%list = (l ++ [y])%list -> x = y.
Proof. intros H. apply app_inv_head in H. now injection H. Qed.

End Machinery.

Ltac unfold_monad :=
  cbv beta iota zeta delta
    [Otel.deferred Otel.End Otel.client_Do mbind mret M_bind M_ret Otel.bind Otel.ret].

Ltac open_span :=
  match goal with
  | |- context [Otel.Start ?ctx ?name ?p] =>
      let tid := fresh "tid" in
      let id := fresh "id" in
      let E := fresh "E" in
      let Hid := fresh "Hid" in
      let Htid := fresh "Htid" in
      destruct (Start_spec ctx name p) as (tid & id & E & Hid & Htid);
      cbv zeta in E; rewrite E; clear E
  end.

(** Case analysis on the innermost test the program is stuck on. *)
Ltac step :=
  match goal with
  | |- context [match ?x with _ => _ end] =>
      lazymatch x with
      | context [match _ with _ => _ end] => fail
      | _ => destruct x eqn:?
      end
  end.

Ltac tidy :=
  cbn [fst snd Otel.wire Otel.exported Otel.nextID
       Http.Status Http.Payload Http.ContentType] in *.

Ltac run := repeat (first [open_span | step]; tidy).

(** ** The gateway *)

(** What the test [res.StatusCode != http.StatusOK] has found. *)
Ltac status_test :=
  match goal with
  | H : negb (_ =? _)%Z = true |- _ => rewrite negb_true_iff, Z.eqb_neq in H
  | H : negb (_ =? _)%Z = false |- _ => rewrite negb_false_iff, Z.eqb_eq in H
  end.

(** A run that has sent [req] and nothing else: the branches that send
    nothing are excluded, the one that sends has sent [req]. *)
Ltac sent_is H :=
  first [ now apply not_grown in H | apply last_sent in H; subst ].

Section Gateway.
Import Go Structs Http Otel ServiceA.

Variable env : Env.

(** When the peer cannot be reached, [client.Do] returns an error and the
    gateway answers 400 with that error. *)
Lemma transport_error_is_400 (r : Request (CEP * option error))
      (p : Proc) (req : Request unit) (e : error) :
  wire (snd (getTempFromZip env r p)) = (wire p ++ [req])%list ->
  Do env req = inl e ->
  fst (getTempFromZip env r p) = http_Error e StatusBadRequest.
Proof.
  unfold getTempFromZip, getTempFromLocal. unfold_monad.
  run; intros H HDo; sent_is H; congruence.
Qed.

(** When the peer answers with any status but 200, [getTempFromLocal]
    returns [Response{}] with the nil [err] of [client.Do], and the
    gateway answers 200 with the zero-valued document. *)
Lemma non_200_is_answered_200 (r : Request (CEP * option error))
      (p : Proc) (req : Request unit) (reply : Reply) :
  wire (snd (getTempFromZip env r p)) = (wire p ++ [req])%list ->
  Do env req = inr reply ->
  StatusCode reply <> StatusOK ->
  fst (getTempFromZip env r p) =
    {| Status := StatusOK; ContentType := "application/json";
       Payload := Document Response_zero |}.
Proof.
  unfold getTempFromZip, getTempFromLocal. unfold_monad.
  run; intros H HDo Hs; sent_is H; try congruence.
  - reflexivity.
  - status_test. congruence.
Qed.

(** C9. When the peer answers 200 with a body the decoder rejects,
    [getTempFromLocal] returns what the decoder left in [rr] with a nil
    error, and the gateway answers 200 with it: the error of [Decode]
    reaches nobody. *)
Theorem decode_error_is_dropped (req : Request unit) (reply : Reply)
        (rr : Response) (e : error) :
  Do env req = inr reply ->
  StatusCode reply = StatusOK ->
  Decoded reply = (rr, Some e) ->
  (forall zip apiKey p,
      wire (snd (getTempFromLocal env zip apiKey p)) = (wire p ++ [req])%list ->
      fst (getTempFromLocal env zip apiKey p) = (rr, None))
  /\ (forall r p,
      wire (snd (getTempFromZip env r p)) = (wire p ++ [req])%list ->
      fst (getTempFromZip env r p) =
        {| Status := StatusOK; ContentType := "application/json";
           Payload := json_Encode rr |}).
Proof.
  intros HDo Hs Hd. split.
  - intros zip apiKey p. unfold getTempFromLocal. unfold_monad.
    run; intros H; sent_is H; try congruence.
    status_test. congruence.
  - intros r p. unfold getTempFromZip, getTempFromLocal. unfold_monad.
    run; intros H; sent_is H; try congruence.
    status_test. congruence.
Qed.

(** C7, as the code has it: a [POST] whose body decodes, with a key,
    whose postal code has not 8 digits is answered 422 and nothing is
    sent to the resolver. *)
Theorem invalid_zip_is_422 (r : Request (CEP * option error)) (p : Proc) :
  Method r = "POST" ->
  snd (Body r) = None ->
  Header_Get (Header r) "api_key" <> "" ->
  countDigits (CEP_ (fst (Body r))) <> 8%nat ->
  fst (getTempFromZip env r p) = http_Error "invalid zipcode" StatusUnprocessableEntity
  /\ wire (snd (getTempFromZip env r p)) = wire p.
Proof.
  intros Hm Hb Hk Hz.
  pose proof (validateZip_cases (CEP_ (Body r).1)) as Hv.
  destruct (decide _) as [|_]; [contradiction |].
  unfold getTempFromZip. unfold_monad. open_span. rewrite Hm.
  destruct (Body r) as [zip [e|]]; [discriminate |].
  tidy. rewrite Hv.
  destruct (String.eqb_spec (Header_Get (Header r) "api_key") ""); [contradiction |].
  split; reflexivity.
Qed.

End Gateway.

(** *** The gateway in concrete worlds *)

Section GatewayRuns.
Import Go Structs Http Otel ServiceA Scenario.

(** [validateZip] on the examples of the specification. *)
Example validateZip_examples :
  validateZip "12345-678" = ("12345678", None)
  /\ validateZip "12345-678x" = ("12345678", None)
  /\ validateZip "123" = ("", Some "invalid zipcode")
  /\ validateZip "1234" = ("", Some "invalid zipcode").
Proof. repeat split. Qed.

(** C2. The resolver answers 400 to the forwarded call: the gateway,
    which should answer 400 itself, answers 200 with an empty city and
    zero temperatures. *)
Theorem downstream_400_is_answered_200 :
  fst (getTempFromZip (peerAnswers reply400) (post "01001000" "k") p0) =
    {| Status := 200; ContentType := "application/json";
       Payload := Document {| City := ""; TempC := 0; TempF := 0; TempK := 0 |} |}.
Proof. vm_compute. reflexivity. Qed.

(** The other half of C2 in a concrete world: the peer is down, the
    gateway answers 400. *)
Example peer_down_is_400 :
  fst (getTempFromZip peerDown (post "01001000" "k") p0)
    = http_Error "dial tcp: connection refused" 400.
Proof. vm_compute. reflexivity. Qed.

(** C9 in a concrete world: the peer answers 200 with a document whose
    [temp_C] is a string. *)
Lemma decode_error_is_dropped_witness :
  fst (getTempFromLocal (peerAnswers replyGarbled) "01001000" "k" p0) =
    ({| City := "Curitiba"; TempC := 0; TempF := 0; TempK := 0 |}, None)
  /\ Status (fst (getTempFromZip (peerAnswers replyGarbled) (post "01001000" "k") p0)) = 200%Z.
Proof.
  pose (req := mkRequest "GET" "http://service-b:8081" (Values_Set ∅ "zip" "01001000")
                 (Inject (Some (mkSpanContext 1 2 true false))
                    (Header_Add ∅ "api_key" "k")) tt).
  pose (req' := mkRequest "GET" "http://service-b:8081" (Values_Set ∅ "zip" "01001000")
                  (Inject (Some (mkSpanContext 3 4 true false))
                     (Header_Add ∅ "api_key" "k")) tt).
  split.
  - apply (proj1 (decode_error_is_dropped (peerAnswers replyGarbled) req replyGarbled
                    _ _ eq_refl eq_refl eq_refl)).
    vm_compute. reflexivity.
  - rewrite (proj2 (decode_error_is_dropped (peerAnswers replyGarbled) req' replyGarbled
                      _ _ eq_refl eq_refl eq_refl) (post "01001000" "k") p0).
    + reflexivity.
    + vm_compute. reflexivity.
Defined.

(** C7 in a concrete world: a [POST] with a 4-digit postal code. *)
Lemma invalid_zip_is_422_witness :
  fst (getTempFromZip peerDown (post "1234" "k") p0)
    = http_Error "invalid zipcode" 422%Z
  /\ wire (snd (getTempFromZip peerDown (post "1234" "k") p0)) = [].
Proof.
  apply (invalid_zip_is_422 peerDown (post "1234" "k") p0).
  - reflexivity.
  - reflexivity.
  - vm_compute. discriminate.
  - vm_compute. discriminate.
Defined.

(** C7 as stated fails: the same body and key sent with [GET] are
    answered 405, before the postal code is looked at. *)
Lemma invalid_zip_other_method_is_405 :
  let r := withMethod "GET" (post "1234" "k") in
  snd (Body r) = None
  /\ Header_Get (Header r) "api_key" = "k"
  /\ countDigits (CEP_ (fst (Body r))) = 4%nat
  /\ Status (fst (getTempFromZip peerDown r p0)) = 405%Z
  /\ Status (fst (getTempFromZip peerDown r p0)) <> 422%Z.
Proof. vm_compute. repeat split; discriminate. Qed.

End GatewayRuns.

(** ** The resolver *)

Section Resolver.
Import Go Structs Http Fastjson Otel ServiceB.

Variable env : Env.

(** [getLocation] starts no span; its result and what it sends do not
    depend on the context or on the process state. *)
Lemma getLocation_run (ctx : Context) (zip : string) (p : Proc) :
  getLocation env ctx zip p =
    (located env zip,
     {| nextID := nextID p; exported := exported p;
        wire := (wire p ++ locationSent env zip)%list |}).
Proof.
  unfold located, locationSent, getLocation. unfold_monad.
  repeat (step; tidy); cbn [idle wire app]; rewrite ?app_nil_r; try reflexivity.
  all: destruct p; reflexivity.
Qed.

(** [getTempFromAPI] may export its span; its result and what it sends
    do not depend on the context or on the process state. *)
Lemma getTempFromAPI_run (ctx : Context) (location apiKey : string) (p : Proc) :
  exists id spans,
    getTempFromAPI env ctx location apiKey p =
      (fetched env location apiKey,
       {| nextID := id; exported := (exported p ++ spans)%list;
          wire := (wire p ++ weatherSent env location apiKey)%list |}).
Proof.
  unfold fetched, weatherSent, getTempFromAPI. unfold_monad.
  destruct (url_Parse env _).
  { exists (nextID p), []. cbn [idle wire app snd fst]. rewrite !app_nil_r. now destruct p. }
  do 2 open_span.
  repeat (step; tidy); cbn [idle wire app]; rewrite ?app_nil_r; eexists _, _; reflexivity.
Qed.

(** The lookup sends its one request or nothing; it fails when nothing
    is sent. *)
Lemma locationSent_cases (zip : string) :
  (locationSent env zip = [] /\ snd (located env zip) <> None)
  \/ locationSent env zip = [locationRequest zip].
Proof.
  unfold locationSent, located, getLocation. unfold_monad.
  repeat (step; tidy); cbn [idle wire app];
    first [now right | left; split; [reflexivity | discriminate]].
Qed.

Lemma weatherSent_cases (location apiKey : string) :
  (weatherSent env location apiKey = [] /\ snd (fetched env location apiKey) <> None)
  \/ weatherSent env location apiKey = [weatherRequest location apiKey].
Proof.
  unfold weatherSent, fetched, getTempFromAPI. unfold_monad.
  destruct (url_Parse env _).
  { left. split; [reflexivity | discriminate]. }
  open_span.
  repeat (step; tidy); cbn [idle wire app];
    first [now right | left; split; [reflexivity | discriminate]].
Qed.

(** The directory and the weather provider are different addresses. *)
Lemma location_is_not_weather (zip location apiKey : string) :
  locationRequest zip <> weatherRequest location apiKey.
Proof.
  intros H. apply (f_equal (fun r => String.get 7 (URL r))) in H.
  vm_compute in H. discriminate.
Qed.

(** [GetFloat64] is 0 exactly in three cases: nothing at the path,
    something that is not a number, or a number equal to 0. *)
Lemma GetFloat64_zero_cases (v : Value) (keys : list string) :
  (GetFloat64 v keys =? 0)%float = true <->
  Get v keys = None
  \/ (exists x, Get v keys = Some x /\ forall f, x <> Number f)
  \/ (exists f, Get v keys = Some (Number f) /\ (f =? 0)%float = true).
Proof.
  unfold GetFloat64. split.
  - destruct (Get v keys) as [x|]; [| now left].
    destruct x; intros H;
      try (right; left; eexists; split; [reflexivity | discriminate]).
    right; right. eauto.
  - intros [-> | [(x & -> & Hx) | (f & -> & Hf)]]; [reflexivity | | exact Hf].
    destruct x; try reflexivity. now destruct (Hx f).
Qed.

(** C4. When the weather provider's answer has been read and parsed and
    its [current.temp_c] comes out as 0 (absent, not a number, or a
    reading of 0), the fetch returns no reading but the error
    "error getting weather, invalid API key". *)
Theorem zero_celsius_is_invalid_key (ctx : Context) (location apiKey : string)
        (p : Proc) (res : http_Response) (v : Value) :
  wire (snd (getTempFromAPI env ctx location apiKey p))
    = (wire p ++ [weatherRequest location apiKey])%list ->
  Do env (weatherRequest location apiKey) = inr res ->
  RespBody res = Complete (JSON v) ->
  (GetFloat64 v ["current"; "temp_c"] =? 0)%float = true ->
  fst (getTempFromAPI env ctx location apiKey p)
    = (Response_zero, Some "error getting weather, invalid API key").
Proof.
  unfold getTempFromAPI, weatherRequest. unfold_monad.
  cbn [Http.URL Http.Query].
  destruct (url_Parse env _); tidy; [intros H; now apply not_grown in H |].
  open_span. tidy.
  destruct (http_NewRequest env _ _ _); tidy; [intros H; now apply not_grown in H |].
  intros _ HDo HBody Hzero. rewrite HDo, HBody. cbn [ReadAll Parse].
  cbn [TempC]. rewrite Hzero. reflexivity.
Qed.

(** C1, as the code has it: in every reading the fetch returns, Kelvin
    is Celsius plus 273, and Celsius and Fahrenheit are the provider's
    [current.temp_c] and [current.temp_f], each read on its own. *)
Theorem kelvin_derived_fahrenheit_read (ctx : Context)
        (location apiKey : string) (p : Proc) (w : Response) :
  fst (getTempFromAPI env ctx location apiKey p) = (w, None) ->
  TempK w = (TempC w + 273)%float
  /\ exists res v,
       Do env (weatherRequest location apiKey) = inr res
       /\ RespBody res = Complete (JSON v)
       /\ TempC w = GetFloat64 v ["current"; "temp_c"]
       /\ TempF w = GetFloat64 v ["current"; "temp_f"].
Proof.
  unfold getTempFromAPI. unfold_monad.
  destruct (url_Parse env _); tidy; [discriminate |].
  open_span. tidy.
  destruct (http_NewRequest env _ _ _); tidy; [discriminate |].
  destruct (Do env (weatherRequest location apiKey)) as [e|res] eqn:HDo; tidy;
    [discriminate |].
  destruct (RespBody res) as [e|[e|v]] eqn:HBody; cbn [ReadAll Parse]; tidy;
    try discriminate.
  cbn [TempC]. destruct (_ =? 0)%float; tidy; [discriminate |].
  intros H. injection H as <-. cbn [TempK TempC TempF].
  split; [reflexivity |]. exists res, v. auto.
Qed.

(** The handler, by what it answers and what it has sent when it is done. *)
Lemma getTemp_run (r : Request unit) (p : Proc) :
  let zip := Values_Get (Query r) "zip" in
  let apiKey := Header_Get (Header r) "api_key" in
  (fst (getTemp env r p), wire (snd (getTemp env r p))) =
    if negb (String.eqb (Method r) "GET")
    then (http_Error "Method not allowed" StatusMethodNotAllowed, wire p)
    else if String.eqb apiKey ""
    then (http_Error "api_key is required" StatusBadRequest, wire p)
    else
      match located env zip with
      | (_, Some e) =>
          (http_Error e StatusBadRequest, (wire p ++ locationSent env zip)%list)
      | (location, None) =>
          match fetched env location apiKey with
          | (_, Some e) =>
              (http_Error e StatusBadRequest,
               (wire p ++ locationSent env zip ++ weatherSent env location apiKey)%list)
          | (res, None) =>
              ({| Status := StatusOK; ContentType := "application/json";
                  Payload := json_Encode {| City := location; TempC := TempC res;
                                            TempF := TempF res; TempK := TempK res |} |},
               (wire p ++ locationSent env zip ++ weatherSent env location apiKey)%list)
          end
      end.
Proof.
  intros zip apiKey. subst zip apiKey. unfold getTemp. unfold_monad. open_span. tidy.
  destruct (negb (Method r =? "GET")); tidy; [reflexivity |].
  destruct (Header_Get (Header r) "api_key" =? ""); tidy; [reflexivity |].
  rewrite getLocation_run.
  destruct (located env (Values_Get (Query r) "zip")) as [location [e|]]; tidy;
    [reflexivity |].
  match goal with
  | |- context [getTempFromAPI ?e ?c ?l ?k ?q] =>
      destruct (getTempFromAPI_run c l k q) as (id' & spans & ->)
  end.
  destruct (fetched env location _) as [res [e|]]; tidy; rewrite <- app_assoc; reflexivity.
Qed.

Lemma locationSent_built (zip : string) :
  http_NewRequest env "GET" (URL (locationRequest zip)) ∅ = None ->
  locationSent env zip = [locationRequest zip].
Proof.
  intros H. unfold locationSent, getLocation. rewrite H. unfold_monad.
  repeat (step; tidy); reflexivity.
Qed.

Lemma located_ok_sent (zip location : string) :
  located env zip = (location, None) -> locationSent env zip = [locationRequest zip].
Proof.
  intros H. destruct (locationSent_cases zip) as [[_ Hn]|Hs]; [| exact Hs].
  rewrite H in Hn. now destruct Hn.
Qed.

Lemma fetched_ok_sent (location apiKey : string) (res : Response) :
  fetched env location apiKey = (res, None) ->
  weatherSent env location apiKey = [weatherRequest location apiKey].
Proof.
  intros H. destruct (weatherSent_cases location apiKey) as [[_ Hn]|Hs]; [| exact Hs].
  rewrite H in Hn. now destruct Hn.
Qed.

(** C6. In every request the resolver handles, what goes out is nothing,
    the directory lookup alone, or the lookup followed by the weather
    call, and the weather call only after the lookup has succeeded; when
    the lookup fails the weather provider is not called and the answer
    is not 200; the answer is 200 only when the lookup and the fetch
    have both succeeded, and it then carries the city of the one and the
    temperatures of the other. *)
Theorem resolution_precedes_fetch (r : Request unit) (p : Proc) :
  let zip := Values_Get (Query r) "zip" in
  let apiKey := Header_Get (Header r) "api_key" in
  let w := fst (getTemp env r p) in
  exists sent,
    wire (snd (getTemp env r p)) = (wire p ++ sent)%list
    /\ (sent = [] \/ sent = [locationRequest zip]
        \/ exists location,
             located env zip = (location, None)
             /\ sent = [locationRequest zip; weatherRequest location apiKey])
    /\ (snd (located env zip) <> None ->
          (forall location key, ~ In (weatherRequest location key) sent)
          /\ Status w <> StatusOK)
    /\ (Status w = StatusOK ->
          exists location res,
            located env zip = (location, None)
            /\ fetched env location apiKey = (res, None)
            /\ sent = [locationRequest zip; weatherRequest location apiKey]
            /\ Payload w = json_Encode {| City := location; TempC := TempC res;
                                          TempF := TempF res; TempK := TempK res |}).
Proof.
  intros zip apiKey w. subst w.
  pose proof (getTemp_run r p) as H. cbv zeta in H. fold zip apiKey in H.
  destruct (negb (Method r =? "GET")).
  { injection H as -> ->. exists []. rewrite app_nil_r.
    repeat split; auto; try discriminate; try (intros ? ? []). }
  destruct (apiKey =? "").
  { injection H as -> ->. exists []. rewrite app_nil_r.
    repeat split; auto; try discriminate; try (intros ? ? []). }
  destruct (located env zip) as [location [e|]] eqn:Hloc.
  - injection H as -> ->. exists (locationSent env zip).
    split; [reflexivity |].
    split; [destruct (locationSent_cases zip) as [[-> _]| ->]; auto |].
    split; [| discriminate].
    intros _. split; [| discriminate].
    intros l k. destruct (locationSent_cases zip) as [[-> _]| ->]; [intros [] |].
    intros [E|[]]. now apply location_is_not_weather in E.
  - rewrite (located_ok_sent _ _ Hloc) in H.
    destruct (fetched env location apiKey) as [res [e|]] eqn:Hf.
    + injection H as -> ->. eexists. split; [reflexivity |].
      split; [| split; [now intros [] | discriminate]].
      destruct (weatherSent_cases location apiKey) as [[-> _]| ->]; eauto.
    + rewrite (fetched_ok_sent _ _ _ Hf) in H. injection H as -> ->.
      eexists. split; [reflexivity |].
      split; [eauto |]. split; [now intros [] |].
      intros _. exists location, res. auto.
Qed.

(** C10, as the code has it: the resolver looks at no property of [zip].
    For every [GET] with a key, when the lookup request can be built, the
    first thing sent is the request for
    [http://viacep.com.br/ws/<zip>/json/] with the raw value of [zip],
    whatever it is; when that lookup fails, nothing else is sent and the
    answer is 400. *)
Theorem lookup_takes_raw_zip (r : Request unit) (p : Proc) :
  let zip := Values_Get (Query r) "zip" in
  Method r = "GET" ->
  Header_Get (Header r) "api_key" <> "" ->
  http_NewRequest env "GET" (URL (locationRequest zip)) ∅ = None ->
  URL (locationRequest zip) = "http://viacep.com.br/ws/" ++ zip ++ "/json/"
  /\ exists rest,
       wire (snd (getTemp env r p)) = (wire p ++ locationRequest zip :: rest)%list
       /\ (snd (located env zip) <> None ->
             rest = [] /\ Status (fst (getTemp env r p)) = StatusBadRequest).
Proof.
  intros zip Hm Hk Hnew. split; [reflexivity |].
  pose proof (getTemp_run r p) as H. cbv zeta in H. fold zip in H.
  rewrite Hm in H. cbn [String.eqb Ascii.eqb Bool.eqb negb] in H.
  destruct (String.eqb_spec (Header_Get (Header r) "api_key") ""); [contradiction |].
  rewrite (locationSent_built _ Hnew) in H.
  destruct (located env zip) as [location [e|]].
  - injection H as -> ->. exists []. split; [reflexivity |]. now intros _.
  - destruct (fetched env location _) as [res [e|]]; injection H as -> ->;
      eexists; (split; [reflexivity | now intros []]).
Qed.

End Resolver.

(** *** The resolver in concrete worlds *)

Section ResolverRuns.
Import Go Structs Http Fastjson Otel ServiceB Scenario.

(** C4 in a concrete world: the provider reports 0 degrees Celsius. *)
Lemma zero_celsius_is_invalid_key_witness :
  fst (getTempFromAPI (world saoPaulo freezing) Background "Sao Paulo" "k" p0)
    = (Response_zero, Some "error getting weather, invalid API key").
Proof.
  apply (zero_celsius_is_invalid_key (world saoPaulo freezing) Background "Sao Paulo" "k" p0
           (mkHttpResponse 200 (Complete (JSON freezing))) freezing).
  - vm_compute. reflexivity.
  - reflexivity.
  - reflexivity.
  - reflexivity.
Defined.

(** C1 in a concrete world: the provider reports 22.3 and 72.1. *)
Lemma kelvin_derived_fahrenheit_read_witness :
  (295.3 = 22.3 + 273)%float
  /\ exists res v,
       Do (world saoPaulo mild) (weatherRequest "Sao Paulo" "k") = inr res
       /\ RespBody res = Complete (JSON v)
       /\ 22.3%float = GetFloat64 v ["current"; "temp_c"]
       /\ 72.1%float = GetFloat64 v ["current"; "temp_f"].
Proof.
  apply (kelvin_derived_fahrenheit_read (world saoPaulo mild) Background "Sao Paulo" "k" p0
           {| City := ""; TempC := 22.3; TempF := 72.1; TempK := 295.3 |}).
  vm_compute. reflexivity.
Defined.

(** C1 as stated fails: the provider reports 22.3 and 72.1, each rounded
    to one decimal; the reading carries the 72.1 it was sent, which is
    not 22.3 * 9 / 5 + 32. *)
Lemma fahrenheit_is_not_derived :
  exists w,
    fst (getTempFromAPI (world saoPaulo mild) Background "Sao Paulo" "k" p0) = (w, None)
    /\ TempC w = 22.3%float
    /\ TempF w = 72.1%float
    /\ (TempF w =? TempC w * 9 / 5 + 32)%float = false
    /\ TempF w <> (TempC w * 9 / 5 + 32)%float.
Proof.
  exists {| City := ""; TempC := 22.3; TempF := 72.1; TempK := 295.3 |}.
  split; [vm_compute; reflexivity |].
  cbn [TempC TempF]. repeat split.
  intros H. apply (f_equal (fun x => (72.1 =? x)%float)) in H.
  vm_compute in H. discriminate.
Qed.

(** C6 in concrete worlds: a known postal code, an unknown one. *)
Example known_zip_is_resolved_then_fetched :
  wire (snd (getTemp (world saoPaulo warm) (get "01001000" "k") p0))
    = [locationRequest "01001000"; weatherRequest "Sao Paulo" "k"]
  /\ fst (getTemp (world saoPaulo warm) (get "01001000" "k") p0)
     = {| Status := 200; ContentType := "application/json";
          Payload := Document {| City := "Sao Paulo"; TempC := 25;
                                 TempF := 77; TempK := 298 |} |}.
Proof. vm_compute. split; reflexivity. Qed.

Example unknown_zip_is_not_fetched :
  wire (snd (getTemp (world saoPaulo warm) (get "99999999" "k") p0))
    = [locationRequest "99999999"]
  /\ fst (getTemp (world saoPaulo warm) (get "99999999" "k") p0)
     = http_Error "can not find zipcode" 400.
Proof. vm_compute. split; reflexivity. Qed.

(** C10 in a concrete world: a 2-digit [zip]. *)
Lemma lookup_takes_raw_zip_witness :
  URL (locationRequest "12") = "http://viacep.com.br/ws/12/json/"
  /\ exists rest,
       wire (snd (getTemp (world saoPaulo mild) (get "12" "k") p0))
         = ([] ++ locationRequest "12" :: rest)%list
       /\ (snd (located (world saoPaulo mild) "12") <> None ->
             rest = []
             /\ Status (fst (getTemp (world saoPaulo mild) (get "12" "k") p0)) = 400%Z).
Proof.
  apply (lookup_takes_raw_zip (world saoPaulo mild) (get "12" "k") p0).
  - reflexivity.
  - vm_compute. discriminate.
  - reflexivity.
Defined.

(** C10 as stated fails: a request with a key and another method than
    [GET] is answered 405 and no lookup goes out. *)
Lemma no_lookup_for_other_method :
  let r := withMethod "POST" (get "12" "k") in
  Header_Get (Header r) "api_key" = "k"
  /\ wire (snd (getTemp (world saoPaulo mild) r p0)) = []
  /\ Status (fst (getTemp (world saoPaulo mild) r p0)) = 405%Z.
Proof. vm_compute. repeat split. Qed.

End ResolverRuns.

(** ** Both services: the key is required before anything is sent *)

Section Credential.
Import Go Structs Http Otel Scenario.

(** C5, as the code has it: a request without [api_key] makes neither
    service send anything, and is answered with a client error: 405 when
    the method is not the one the service takes ([POST] for the gateway,
    [GET] for the resolver), 400 otherwise. *)
Theorem missing_key_sends_nothing :
  (forall (env : ServiceA.Env) (r : Request (CEP * option error)) (p : Proc),
      Header_Get (Header r) "api_key" = "" ->
      Status (fst (ServiceA.getTempFromZip env r p))
        = (if String.eqb (Method r) "POST"
           then StatusBadRequest else StatusMethodNotAllowed)
      /\ wire (snd (ServiceA.getTempFromZip env r p)) = wire p)
  /\ (forall (env : ServiceB.Env) (r : Request unit) (p : Proc),
      Header_Get (Header r) "api_key" = "" ->
      Status (fst (ServiceB.getTemp env r p))
        = (if String.eqb (Method r) "GET"
           then StatusBadRequest else StatusMethodNotAllowed)
      /\ wire (snd (ServiceB.getTemp env r p)) = wire p).
Proof.
  split; intros env r p Hk.
  - unfold ServiceA.getTempFromZip. unfold_monad. open_span. rewrite Hk.
    destruct (Method r =? "POST"); cbn [negb]; tidy; [| now split].
    destruct (Body r) as [zip [e|]]; tidy; now split.
  - pose proof (getTemp_run env r p) as H. cbv zeta in H. rewrite Hk in H.
    destruct (Method r =? "GET"); cbn [negb String.eqb] in H;
      injection H as -> ->; now split.
Qed.

Lemma missing_key_sends_nothing_witness :
  (Status (fst (ServiceA.getTempFromZip peerDown
                  (anonymous "POST" ∅ (mkCEP "01001000", None)) p0)) = 400%Z
   /\ wire (snd (ServiceA.getTempFromZip peerDown
                   (anonymous "POST" ∅ (mkCEP "01001000", None)) p0)) = [])
  /\ (Status (fst (ServiceB.getTemp (world saoPaulo mild)
                     (anonymous "GET" (Values_Set ∅ "zip" "01001000") tt) p0)) = 400%Z
      /\ wire (snd (ServiceB.getTemp (world saoPaulo mild)
                      (anonymous "GET" (Values_Set ∅ "zip" "01001000") tt) p0)) = []).
Proof.
  split.
  - apply (proj1 missing_key_sends_nothing peerDown
             (anonymous "POST" ∅ (mkCEP "01001000", None)) p0).
    reflexivity.
  - apply (proj2 missing_key_sends_nothing (world saoPaulo mild)
             (anonymous "GET" (Values_Set ∅ "zip" "01001000") tt) p0).
    reflexivity.
Defined.

(** C5 as stated fails: without a key, a [GET] to the gateway is
    answered 405, not 400. *)
Lemma missing_key_other_method_is_405 :
  let r := anonymous "GET" ∅ (mkCEP "01001000", None) in
  Header_Get (Header r) "api_key" = ""
  /\ Status (fst (ServiceA.getTempFromZip peerDown r p0)) = 405%Z
  /\ Status (fst (ServiceA.getTempFromZip peerDown r p0)) <> 400%Z.
Proof. vm_compute. repeat split. discriminate. Qed.

End Credential.

(** ** Trace context: from the gateway to the resolver *)

Section Propagation.
Import Go Structs Http Fastjson Otel Scenario.

Lemma length_append_char (s : string) (c : ascii) :
  String.length (s ++ String c EmptyString) = S (String.length s).
Proof.
  induction s as [|d s IH]; [reflexivity |].
  rewrite append_cons. simpl. now rewrite IH.
Qed.

Lemma length_hex (width : nat) (n : N) : String.length (hex width n) = width.
Proof.
  revert n. induction width as [|w IH]; intros n; [reflexivity |].
  simpl. now rewrite length_append_char, IH.
Qed.

Lemma hexValue_hexDigit (d : N) : (d < 16)%N -> hexValue (hexDigit d) = Some d.
Proof.
  intros H. rewrite <- (N2Nat.id d).
  assert (Hn : (N.to_nat d < 16)%nat) by lia.
  revert Hn. generalize (N.to_nat d). intros n Hn.
  do 16 (destruct n as [|n]; [reflexivity |]). lia.
Qed.

Lemma unhex_snoc (s : string) (c : ascii) (acc : N) :
  unhex acc (s ++ String c EmptyString) =
    match unhex acc s with
    | Some a =>
        match hexValue c with
        | Some d => Some (a * 16 + d)%N
        | None => None
        end
    | None => None
    end.
Proof.
  revert acc. induction s as [|d s IH]; intros acc.
  - simpl. now destruct (hexValue c).
  - rewrite append_cons. simpl. destruct (hexValue d); [apply IH | reflexivity].
Qed.

Lemma unhex_hex (width : nat) (n acc : N) :
  unhex acc (hex width n) = Some (acc * 16 ^ N.of_nat width + n mod 16 ^ N.of_nat width)%N.
Proof.
  revert n. induction width as [|w IH]; intros n.
  - simpl. rewrite N.mod_1_r. f_equal; lia.
  - cbn [hex]. rewrite unhex_snoc, IH, hexValue_hexDigit
      by (apply N.mod_upper_bound; discriminate).
    f_equal; rewrite Nat2N.inj_succ, N.pow_succ_r', N.Div0.mod_mul_r; lia.
Qed.

Lemma append_empty_l (s : string) : ("" ++ s)%string = s.
Proof. reflexivity. Qed.

(** A part of the right width reads back as the number it was written from. *)
Lemma part_hex (width : nat) (n : N) :
  (n < 16 ^ N.of_nat width)%N -> part width (hex width n) = Some n.
Proof.
  intros H. unfold part. rewrite length_hex, Nat.eqb_refl, unhex_hex.
  rewrite N.mod_small by exact H. f_equal; lia.
Qed.

(** Hex digits are not dashes: a part ends at the next dash. *)
Lemma fields_part (s rest cur : string) (acc v : N) :
  unhex acc s = Some v ->
  fields cur (s ++ String "-" rest) = (cur ++ s) :: fields EmptyString rest.
Proof.
  revert acc cur. induction s as [|c s IH]; intros acc cur H.
  - simpl. now rewrite append_empty_r.
  - rewrite append_cons. simpl in H |- *.
    destruct (hexValue c) as [d|] eqn:Hc; [| discriminate].
    destruct (Ascii.eqb_spec c "-") as [->|_]; [discriminate |].
    rewrite (IH _ _ H). now rewrite append_assoc_char.
Qed.

Lemma fields_last (s cur : string) (acc v : N) :
  unhex acc s = Some v -> fields cur s = [cur ++ s].
Proof.
  revert acc cur. induction s as [|c s IH]; intros acc cur H.
  - simpl. now rewrite append_empty_r.
  - simpl in H |- *.
    destruct (hexValue c) as [d|] eqn:Hc; [| discriminate].
    destruct (Ascii.eqb_spec c "-") as [->|_]; [discriminate |].
    rewrite (IH _ _ H). now rewrite append_assoc_char.
Qed.

(** A header made of the version 00 and three well-formed parts. *)
Lemma parse_parts (tid sid opts : string) (t s o : N) :
  part 32 tid = Some t ->
  part 16 sid = Some s ->
  part 2 opts = Some o ->
  parseTraceparent ("00-" ++ tid ++ "-" ++ sid ++ "-" ++ opts) =
    if (2 <? o)%N then None
    else
      let sc := {| TraceID := t; SpanID := s; Sampled := N.odd o; Remote := true |} in
      if IsValid sc then Some sc else None.
Proof.
  intros Ht Hs Ho. unfold parseTraceparent.
  assert (Hut : unhex 0 tid = Some t).
  { unfold part in Ht. now destruct (_ =? _)%nat. }
  assert (Hus : unhex 0 sid = Some s).
  { unfold part in Hs. now destruct (_ =? _)%nat. }
  assert (Huo : unhex 0 opts = Some o).
  { unfold part in Ho. now destruct (_ =? _)%nat. }
  change ("00-" ++ tid ++ "-" ++ sid ++ "-" ++ opts)
    with (String "0" (String "0" (String "-"
            (tid ++ String "-" (sid ++ String "-" opts))))).
  cbn [fields Ascii.eqb Bool.eqb].
  rewrite (fields_part _ _ _ _ _ Hut), (fields_part _ _ _ _ _ Hus),
    (fields_last _ _ _ _ Huo).
  change (part 2 (("" ++ "0") ++ "0")) with (Some 0%N).
  rewrite !append_empty_l, Ht, Hs, Ho.
  reflexivity.
Qed.

(** The header written for a span context reads back as that span
    context, marked remote. *)
Lemma parse_traceparent (sc : SpanContext) :
  IsValid sc = true ->
  (TraceID sc < 2 ^ 128)%N ->
  (SpanID sc < 2 ^ 64)%N ->
  parseTraceparent (traceparent sc) =
    Some {| TraceID := TraceID sc; SpanID := SpanID sc;
            Sampled := Sampled sc; Remote := true |}.
Proof.
  intros Hv Ht Hs.
  assert (H32 : (16 ^ N.of_nat 32 = 2 ^ 128)%N) by (vm_compute; reflexivity).
  assert (H16 : (16 ^ N.of_nat 16 = 2 ^ 64)%N) by (vm_compute; reflexivity).
  unfold traceparent.
  rewrite (parse_parts _ _ _ (TraceID sc) (SpanID sc) (if Sampled sc then 1 else 0)%N).
  - clear Ht Hs H32 H16. destruct sc as [t s sampled rem].
    unfold IsValid in *. cbn [TraceID SpanID Sampled] in *.
    destruct sampled; cbn [N.ltb N.compare Pos.compare Pos.compare_cont N.odd];
      cbv zeta; cbn [TraceID SpanID]; rewrite Hv; reflexivity.
  - apply part_hex. rewrite H32. exact Ht.
  - apply part_hex. rewrite H16. exact Hs.
  - apply part_hex. destruct (Sampled sc); vm_compute; reflexivity.
Qed.

Lemma Extract_Inject (ctx : Context) (sc : SpanContext) (carrier : gmap string string) :
  IsValid sc = true ->
  (TraceID sc < 2 ^ 128)%N ->
  (SpanID sc < 2 ^ 64)%N ->
  Extract ctx (Inject (Some sc) carrier) =
    Some {| TraceID := TraceID sc; SpanID := SpanID sc;
            Sampled := Sampled sc; Remote := true |}.
Proof.
  intros Hv Ht Hs. unfold Extract, Inject, Header_Get, Header_Set. rewrite Hv.
  rewrite lookup_insert_eq. cbn [default]. unfold id.
  rewrite (parse_traceparent sc Hv Ht Hs).
  reflexivity.
Qed.

(** What [Extract] finds is a valid, remote span context. *)
Lemma Extract_valid (carrier : gmap string string) (sc : SpanContext) :
  Extract Background carrier = Some sc -> IsValid sc = true /\ Remote sc = true.
Proof.
  unfold Extract, Background, parseTraceparent.
  repeat step; try discriminate; intros H; injection H as <-; auto.
Qed.

(** The span the resolver starts for a request is a child of the span
    context the request carries. *)
Lemma resolver_span_parent (env : ServiceB.Env) (r : Request unit) (p : Proc)
      (psc : SpanContext) :
  Extract Background (Header r) = Some psc ->
  exists spans sc,
    exported (snd (ServiceB.getTemp env r p))
      = (exported p ++ spans
           ++ [{| Name := "service-b"; SC := sc; Parent := Some psc |}])%list
    /\ TraceID sc = TraceID psc.
Proof.
  intros Hx. destruct (Extract_valid _ _ Hx) as [Hv _].
  unfold ServiceB.getTemp. unfold_monad.
  open_span. rewrite Hx, Hv in *. subst tid. tidy.
  destruct (negb (Method r =? "GET")); tidy; [now eexists [], _ |].
  destruct (Header_Get (Header r) "api_key" =? ""); tidy; [now eexists [], _ |].
  rewrite getLocation_run.
  destruct (ServiceB.located env _) as [location [e|]]; tidy; [now eexists [], _ |].
  match goal with
  | |- context [ServiceB.getTempFromAPI ?e ?c ?l ?k ?q] =>
      destruct (getTempFromAPI_run e c l k q) as (id' & spans & ->)
  end.
  destruct (ServiceB.fetched env location _) as [res [e|]]; tidy;
    eexists spans, _; now rewrite <- app_assoc.
Qed.

(** The span the gateway starts around the forwarded call is started
    from [context.Background()]: it has no parent and opens a trace of
    its own, and it is that span context the request carries. *)
Lemma outgoing_span_is_a_root (env : ServiceA.Env) (zip apiKey : string) (p : Proc) :
  (exported (snd (ServiceA.getTempFromLocal env zip apiKey p)) = exported p
   /\ wire (snd (ServiceA.getTempFromLocal env zip apiKey p)) = wire p)
  \/ exists sc req,
       exported (snd (ServiceA.getTempFromLocal env zip apiKey p))
         = (exported p ++ [{| Name := "outgoing request to service-b";
                              SC := sc; Parent := None |}])%list
       /\ wire (snd (ServiceA.getTempFromLocal env zip apiKey p)) = (wire p ++ [req])%list
       /\ Header req = Inject (Some sc) (Header_Add ∅ "api_key" apiKey)
       /\ TraceID sc = N.succ (nextID p).
Proof.
  unfold ServiceA.getTempFromLocal. unfold_monad.
  destruct (ServiceA.url_Parse env _); tidy; [now left |].
  destruct (ServiceA.http_NewRequest env _ _ _); tidy; [now left |].
  open_span. right. eexists _, _.
  repeat (step; tidy); repeat split; exact Htid.
Qed.

(** Whatever the request and the world: when the gateway forwards, the
    resolver reads back the context of the outgoing span, which is a
    root; a request that came without trace context is served in one
    trace and forwarded in another. *)
Lemma forwarded_context_is_a_root (env : ServiceA.Env)
      (r : Request (CEP * option error)) (p : Proc) (fwd : Request unit) :
  (nextID p + 4 < 2 ^ 64)%N ->
  wire (snd (ServiceA.getTempFromZip env r p)) = (wire p ++ [fwd])%list ->
  exists inbound outgoing,
    exported (snd (ServiceA.getTempFromZip env r p))
      = (exported p ++ [outgoing; inbound])%list
    /\ Name inbound = "service-a"
    /\ Name outgoing = "outgoing request to service-b"
    /\ Parent outgoing = None
    /\ Extract Background (Header fwd)
         = Some {| TraceID := TraceID (SC outgoing); SpanID := SpanID (SC outgoing);
                   Sampled := true; Remote := true |}
    /\ (Extract Background (Header r) = None ->
          TraceID (SC outgoing) <> TraceID (SC inbound)).
Proof.
  intros Hp. unfold ServiceA.getTempFromZip, ServiceA.getTempFromLocal. unfold_monad.
  change (Start Background "outgoing request to service-b")
    with (Start None "outgoing request to service-b").
  run; intros H; try (now apply not_grown in H);
    apply last_sent in H; subst fwd; cbn [Header nextID] in *;
    eexists _, _; rewrite <- app_assoc; (split; [reflexivity |]);
    cbn [Name Parent SC TraceID SpanID];
    (split; [reflexivity |]); (split; [reflexivity |]); (split; [reflexivity |]).
  all: assert (Hpow : (2 ^ 64 < 2 ^ 128)%N) by (vm_compute; reflexivity).
  all: split;
    [ rewrite Extract_Inject;
      [ reflexivity
      | unfold IsValid; cbn [TraceID SpanID];
        apply andb_true_intro; split; apply negb_true_iff, N.eqb_neq; lia
      | cbn [TraceID]; lia
      | cbn [SpanID]; lia ]
    | intros Hnone; rewrite Hnone in *; lia ].
Qed.

(** C8. A client's request without trace context, forwarded to the
    resolver: the header the gateway injects reads back, in the
    resolver, as the context of the gateway's outgoing span, and the
    resolver's span is its child; but that outgoing span has no parent
    and another trace id than the span of the inbound request, so the
    resolver's span is not in the trace of the inbound request. *)
Theorem forwarded_context_opens_a_new_trace :
  let a := ServiceA.getTempFromZip (resolverBehind (world saoPaulo warm))
             (post "01001000" "k") p0 in
  exists inbound outgoing fwd fetch downstream,
    exported (snd a) = [outgoing; inbound]
    /\ Name inbound = "service-a"
    /\ Name outgoing = "outgoing request to service-b"
    /\ wire (snd a) = [fwd]
    /\ Header_Get (Header fwd) "traceparent" = traceparent (SC outgoing)
    /\ exported (snd (ServiceB.getTemp (world saoPaulo warm) fwd resolverProc))
         = [fetch; downstream]
    /\ Name downstream = "service-b"
    /\ Parent downstream
         = Some {| TraceID := TraceID (SC outgoing); SpanID := SpanID (SC outgoing);
                   Sampled := true; Remote := true |}
    /\ TraceID (SC downstream) = TraceID (SC outgoing)
    /\ Parent outgoing = None
    /\ Parent inbound = None
    /\ TraceID (SC outgoing) <> TraceID (SC inbound)
    /\ TraceID (SC downstream) <> TraceID (SC inbound).
Proof.
  exists {| Name := "service-a"; SC := mkSpanContext 1 2 true false; Parent := None |},
         {| Name := "outgoing request to service-b";
            SC := mkSpanContext 3 4 true false; Parent := None |},
         (mkRequest "GET" "http://service-b:8081" (Values_Set ∅ "zip" "01001000")
            (Inject (Some (mkSpanContext 3 4 true false)) (Header_Add ∅ "api_key" "k")) tt),
         {| Name := "outgoing request to weatherapi";
            SC := mkSpanContext 3 102 true false;
            Parent := Some (mkSpanContext 3 101 true false) |},
         {| Name := "service-b"; SC := mkSpanContext 3 101 true false;
            Parent := Some (mkSpanContext 3 4 true true) |}.
  vm_compute. repeat split; discriminate.
Qed.

(** The spec's end-to-end example: the gateway answers 200 with the city
    and the three temperatures. *)
Example end_to_end :
  fst (ServiceA.getTempFromZip (resolverBehind (world saoPaulo warm))
         (post "01001000" "k") p0)
  = {| Status := 200; ContentType := "application/json";
       Payload := Document {| City := "Sao Paulo"; TempC := 25;
                              TempF := 77; TempK := 298 |} |}.
Proof. vm_compute. reflexivity. Qed.

End Propagation.

(** * Further properties of the two programs *)

(** ** The validator *)

Section ValidatorMore.
Import Go ServiceA.

Lemma digitsOf_idem (s : string) : digitsOf (digitsOf s) = digitsOf s.
Proof.
  induction s as [|c s IH]; [reflexivity |].
  simpl. destruct (isDigit c) eqn:E; [simpl; rewrite E; now f_equal | exact IH].
Qed.

(** X1. [validateZip] looks at nothing but the digits of its argument:
    two texts with the same digits in the same order get the same
    result, whatever separates the digits. *)
Theorem validateZip_same_digits (a b : string) :
  digitsOf a = digitsOf b -> validateZip a = validateZip b.
Proof.
  intros H. rewrite !validateZip_cases, <- !length_digitsOf, H. reflexivity.
Qed.

(** X2. A postal code [validateZip] has accepted is accepted again and
    comes back unchanged; it has 8 characters, all digits. *)
Theorem validateZip_idempotent (raw z : string) :
  validateZip raw = (z, None) ->
  validateZip z = (z, None) /\ len z = 8%nat /\ allDigits z = true.
Proof.
  rewrite validateZip_cases. destruct (decide _) as [Hz|Hz]; [| discriminate].
  intros H. injection H as <-.
  rewrite validateZip_cases, <- !length_digitsOf, digitsOf_idem, length_digitsOf.
  destruct (decide _); [| contradiction].
  split; [reflexivity |]. split; [unfold len; now rewrite length_digitsOf |].
  apply allDigits_digitsOf.
Qed.

End ValidatorMore.

(** ** The gateway, path by path *)

Section Spans.
Import Otel.

(** A span the tracer has started has a valid context. *)
Lemma started_is_valid (tid id n : N) :
  (n < id)%N -> tid = N.succ n ->
  IsValid {| TraceID := tid; SpanID := id; Sampled := true; Remote := false |} = true.
Proof.
  intros Hid ->. unfold IsValid. cbn [TraceID SpanID].
  apply andb_true_intro; split; apply negb_true_iff, N.eqb_neq; lia.
Qed.

(** Without a [traceparent] header nothing is extracted. *)
Lemma Extract_absent (carrier : gmap string string) :
  Http.Header_Get carrier "traceparent" = "" ->
  Extract Background carrier = None.
Proof. intros H. unfold Extract. rewrite H. reflexivity. Qed.

(** A [traceparent] header that is the one written for a valid span
    context is extracted as that context, marked remote. *)
Lemma Extract_written (carrier : gmap string string) (sc : SpanContext) :
  IsValid sc = true ->
  (TraceID sc < 2 ^ 128)%N ->
  (SpanID sc < 2 ^ 64)%N ->
  Http.Header_Get carrier "traceparent" = traceparent sc ->
  Extract Background carrier
    = Some {| TraceID := TraceID sc; SpanID := SpanID sc;
              Sampled := Sampled sc; Remote := true |}.
Proof.
  intros Hv Ht Hs H. unfold Extract. rewrite H.
  now rewrite (parse_traceparent sc Hv Ht Hs).
Qed.

End Spans.

Section GatewayCases.
Import Go Structs Http Otel ServiceA.

Variable env : Env.

(** The gateway, path by path. *)
Lemma gateway_cases (r : Request (CEP * option error)) (p : Proc) :
  let w := fst (getTempFromZip env r p) in
  let p' := snd (getTempFromZip env r p) in
  let cep := CEP_ (fst (Body r)) in
  let key := Header_Get (Header r) "api_key" in
  (Method r <> "POST"
   /\ w = http_Error "Method not allowed" StatusMethodNotAllowed /\ wire p' = wire p)
  \/ (Method r = "POST"
      /\ exists e, snd (Body r) = Some e
           /\ w = http_Error e StatusBadRequest /\ wire p' = wire p)
  \/ (Method r = "POST" /\ snd (Body r) = None /\ key = ""
      /\ w = http_Error "api_key is required" StatusBadRequest /\ wire p' = wire p)
  \/ (Method r = "POST" /\ snd (Body r) = None /\ key <> ""
      /\ countDigits cep <> 8%nat
      /\ w = http_Error "invalid zipcode" StatusUnprocessableEntity /\ wire p' = wire p)
  \/ (Method r = "POST" /\ snd (Body r) = None /\ key <> ""
      /\ countDigits cep = 8%nat
      /\ exists e, w = http_Error e StatusBadRequest /\ wire p' = wire p)
  \/ (Method r = "POST" /\ snd (Body r) = None /\ key <> ""
      /\ countDigits cep = 8%nat
      /\ exists req sc,
           wire p' = (wire p ++ [req])%list
           /\ IsValid sc = true
           /\ req = mkRequest "GET" "http://service-b:8081"
                      (Values_Set ∅ "zip" (digitsOf cep))
                      (Inject (Some sc) (Header_Add ∅ "api_key" key)) tt
           /\ w = match Do env req with
                  | inl e => http_Error e StatusBadRequest
                  | inr reply =>
                      {| Status := StatusOK; ContentType := "application/json";
                         Payload := json_Encode
                                      (if (StatusCode reply =? StatusOK)%Z
                                       then fst (Decoded reply) else Response_zero) |}
                  end).
Proof.
  cbv zeta. unfold getTempFromZip, getTempFromLocal. unfold_monad.
  change (Start Background "outgoing request to service-b")
    with (Start None "outgoing request to service-b").
  open_span. tidy.
  destruct (String.eqb_spec (Method r) "POST") as [Hm|Hm]; cbn [negb]; tidy;
    [| now left].
  right. destruct (Body r) as [zip [e|]] eqn:Hb; tidy; [left; eauto |].
  right. destruct (String.eqb_spec (Header_Get (Header r) "api_key") "") as [Hk|Hk]; tidy;
    [left; repeat split; auto |].
  right. rewrite validateZip_cases.
  destruct (decide (countDigits (CEP_ zip) = 8%nat)) as [Hz|Hz]; tidy; [| left; repeat split; auto].
  right.
  destruct (url_Parse env _); tidy; [left; eauto 10 |].
  destruct (http_NewRequest env _ _ _); tidy; [left; eauto 10 |].
  right. open_span. tidy.
  repeat split; try assumption.
  eexists _, {| TraceID := tid0; SpanID := id0; Sampled := true; Remote := false |}.
  assert (Hv : IsValid {| TraceID := tid0; SpanID := id0; Sampled := true;
                          Remote := false |} = true)
    by (eapply started_is_valid; [apply Hid0 | exact Htid0]).
  destruct (Do env _) as [e|reply] eqn:HDo; tidy.
  - split; [reflexivity |]. split; [exact Hv |]. split; [reflexivity |].
    now rewrite HDo.
  - destruct (StatusCode reply =? StatusOK)%Z eqn:Hs; cbn [negb]; tidy.
    + destruct (Decoded reply) as [rr oe] eqn:Hd; tidy.
      split; [reflexivity |]. split; [exact Hv |]. split; [reflexivity |].
      now rewrite HDo, Hs, Hd.
    + split; [reflexivity |]. split; [exact Hv |]. split; [reflexivity |].
      now rewrite HDo, Hs.
Qed.

(** X3. The gateway answers 405 exactly when the method is not [POST];
    it then answers "Method not allowed" and sends nothing, whatever the
    body and the headers are. *)
Theorem gateway_405_iff_not_post (r : Request (CEP * option error)) (p : Proc) :
  (Status (fst (getTempFromZip env r p)) = StatusMethodNotAllowed <-> Method r <> "POST")
  /\ (Method r <> "POST" ->
        fst (getTempFromZip env r p)
          = http_Error "Method not allowed" StatusMethodNotAllowed
        /\ wire (snd (getTempFromZip env r p)) = wire p).
Proof.
  destruct (gateway_cases r p)
    as [(Hm & -> & Hw) | [(Hm & e & _ & -> & _) | [(Hm & _ & _ & -> & _)
       | [(Hm & _ & _ & _ & -> & _) | [(Hm & _ & _ & _ & e & -> & _)
       | (Hm & _ & _ & _ & req & sc & _ & _ & _ & ->)]]]]].
  1: now split.
  1-4: split; [split; [discriminate | contradiction] | contradiction].
  split; [| contradiction].
  split; [| contradiction].
  destruct (Do env req); discriminate.
Qed.

(** X4. A [POST] whose body does not decode is answered 400 with the
    decoder's error and nothing is sent; the body is looked at before
    the key, so this holds with or without [api_key]. *)
Theorem undecodable_body_is_400 (r : Request (CEP * option error)) (p : Proc)
        (e : error) :
  Method r = "POST" ->
  snd (Body r) = Some e ->
  fst (getTempFromZip env r p) = http_Error e StatusBadRequest
  /\ wire (snd (getTempFromZip env r p)) = wire p.
Proof.
  intros Hm Hb.
  destruct (gateway_cases r p)
    as [(Hn & _) | [(_ & e' & Hb' & -> & Hw) | [(_ & Hb' & _) | [(_ & Hb' & _)
       | [(_ & Hb' & _) | (_ & Hb' & _)]]]]]; try congruence.
  split; [congruence | exact Hw].
Qed.

(** X5. The gateway answers 422 only for an invalid postal code: exactly
    when the request is a [POST] whose body decodes, with a key, and
    whose postal code has not 8 digits. *)
Theorem gateway_422_iff_invalid_zip (r : Request (CEP * option error)) (p : Proc) :
  Status (fst (getTempFromZip env r p)) = StatusUnprocessableEntity
  <-> Method r = "POST" /\ snd (Body r) = None
      /\ Header_Get (Header r) "api_key" <> ""
      /\ countDigits (CEP_ (fst (Body r))) <> 8%nat.
Proof.
  destruct (gateway_cases r p)
    as [(Hm & -> & Hw) | [(Hm & e & Hb & -> & _) | [(Hm & Hb & Hk & -> & _)
       | [(Hm & Hb & Hk & Hz & -> & _) | [(Hm & Hb & Hk & Hz & e & -> & _)
       | (Hm & Hb & Hk & Hz & req & sc & _ & _ & _ & ->)]]]]].
  - split; [discriminate | now intros (? & _)].
  - split; [discriminate | intros (_ & ? & _); congruence].
  - split; [discriminate | intros (_ & _ & ? & _); contradiction].
  - split; auto.
  - split; [discriminate | intros (_ & _ & _ & ?); contradiction].
  - split; [destruct (Do env req); discriminate | intros (_ & _ & _ & ?); contradiction].
Qed.

Lemma injected_keeps_key (sc : SpanContext) (key : string) :
  Header_Get (Inject (Some sc) (Header_Add ∅ "api_key" key)) "api_key" = key.
Proof.
  unfold Inject, Header_Get, Header_Set, Header_Add.
  rewrite lookup_empty.
  destruct (IsValid sc); [rewrite lookup_insert_ne by discriminate |];
    now rewrite lookup_insert_eq.
Qed.

Lemma injected_traceparent (sc : SpanContext) (h : gmap string string) :
  IsValid sc = true ->
  Header_Get (Inject (Some sc) h) "traceparent" = traceparent sc.
Proof.
  intros Hv. unfold Inject, Header_Get, Header_Set. rewrite Hv.
  now rewrite lookup_insert_eq.
Qed.

(** X6. The gateway sends at most one request, and only for a [POST]
    whose body decodes, with a key and an 8-digit postal code: a [GET]
    to the resolver that carries the postal code stripped to its digits
    (never the client's raw text), the client's key unchanged in the
    header [api_key], and a [traceparent] header. *)
Theorem gateway_forwards_normalised (r : Request (CEP * option error)) (p : Proc) :
  let cep := CEP_ (fst (Body r)) in
  let key := Header_Get (Header r) "api_key" in
  wire (snd (getTempFromZip env r p)) = wire p
  \/ exists req,
       wire (snd (getTempFromZip env r p)) = (wire p ++ [req])%list
       /\ Method r = "POST" /\ snd (Body r) = None /\ key <> ""
       /\ Method req = "GET"
       /\ URL req = "http://service-b:8081"
       /\ Query req = {[ "zip" := digitsOf cep ]}
       /\ len (digitsOf cep) = 8%nat
       /\ allDigits (digitsOf cep) = true
       /\ Header_Get (Header req) "api_key" = key
       /\ exists sc, Header_Get (Header req) "traceparent" = traceparent sc.
Proof.
  cbv zeta.
  destruct (gateway_cases r p)
    as [(_ & _ & Hw) | [(_ & e & _ & _ & Hw) | [(_ & _ & _ & _ & Hw)
       | [(_ & _ & _ & _ & _ & Hw) | [(_ & _ & _ & _ & e & _ & Hw)
       | (Hm & Hb & Hk & Hz & req & sc & Hw & Hv & -> & _)]]]]]; auto.
  right. eexists. split; [exact Hw |].
  cbn [Method URL Query Header].
  repeat split; try assumption.
  - unfold len. now rewrite length_digitsOf.
  - apply allDigits_digitsOf.
  - apply injected_keeps_key.
  - exists sc. now apply injected_traceparent.
Qed.

(** X7. Once the request is forwarded, the gateway's answer depends on
    the peer's answer alone: 400 with the error when the call fails, and
    otherwise always 200, with the decoded document when the peer
    answered 200 and with the zero-valued document for any other status.
    The peer's own status is never relayed. *)
Theorem gateway_answer_follows_peer (r : Request (CEP * option error)) (p : Proc)
        (req : Request unit) :
  wire (snd (getTempFromZip env r p)) = (wire p ++ [req])%list ->
  fst (getTempFromZip env r p) =
    match Do env req with
    | inl e => http_Error e StatusBadRequest
    | inr reply =>
        {| Status := StatusOK; ContentType := "application/json";
           Payload := json_Encode (if (StatusCode reply =? StatusOK)%Z
                                   then fst (Decoded reply) else Response_zero) |}
    end.
Proof.
  intros H.
  destruct (gateway_cases r p)
    as [(_ & _ & Hw) | [(_ & e & _ & _ & Hw) | [(_ & _ & _ & _ & Hw)
       | [(_ & _ & _ & _ & _ & Hw) | [(_ & _ & _ & _ & e & _ & Hw)
       | (_ & _ & _ & _ & req' & sc & Hw & _ & _ & Hans)]]]]];
    try (rewrite Hw in H; now apply not_grown in H).
  rewrite Hw in H. apply last_sent in H. now subst req'.
Qed.



(** The spans of the gateway, with the parent of the request's span as
    the propagator hands it over. *)
Lemma gateway_span_shape (r : Request (CEP * option error)) (p : Proc) :
  exists inner inbound,
    exported (snd (getTempFromZip env r p)) = (exported p ++ inner ++ [inbound])%list
    /\ Name inbound = "service-a"
    /\ Parent inbound = Extract Background (Header r)
    /\ (forall psc, Extract Background (Header r) = Some psc ->
          TraceID (SC inbound) = TraceID psc)
    /\ (Extract Background (Header r) = None ->
          TraceID (SC inbound) = N.succ (nextID p))
    /\ (inner = []
        \/ exists outgoing, inner = [outgoing]
             /\ Name outgoing = "outgoing request to service-b").
Proof.
  unfold getTempFromZip, getTempFromLocal. unfold_monad.
  change (Start Background "outgoing request to service-b")
    with (Start None "outgoing request to service-b").
  open_span.
  assert (Hsome : forall psc, Extract Background (Header r) = Some psc -> tid = TraceID psc).
  { intros psc Hx. destruct (Extract_valid _ _ Hx) as [Hv _].
    now rewrite Hx, Hv in Htid. }
  assert (Hnone : Extract Background (Header r) = None -> tid = N.succ (nextID p)).
  { intros Hx. now rewrite Hx in Htid. }
  clear Htid. tidy.
  run; cbn [Name Parent SC TraceID];
    first [ exists []; eexists; rewrite app_nil_l;
            (split; [reflexivity |]); cbn [Name Parent SC TraceID]; auto 10
          | eexists [_]; eexists; rewrite <- app_assoc;
            (split; [reflexivity |]); cbn [Name Parent SC TraceID];
            repeat split; eauto 10 ].
Qed.

(** X9. On every path the gateway ends the span of the request exactly
    once and last, after the span of the forwarded call when there is
    one.  When the request has no [traceparent] header that span has no
    parent and opens a trace; when the header is the one written for a
    valid span context, that context (marked remote) is its parent and
    the span has its trace id. *)
Theorem gateway_span_is_always_ended (r : Request (CEP * option error)) (p : Proc) :
  exists inner inbound,
    exported (snd (getTempFromZip env r p)) = (exported p ++ inner ++ [inbound])%list
    /\ Name inbound = "service-a"
    /\ (Header_Get (Header r) "traceparent" = "" ->
          Parent inbound = None /\ TraceID (SC inbound) = N.succ (nextID p))
    /\ (forall sc,
          IsValid sc = true -> (TraceID sc < 2 ^ 128)%N -> (SpanID sc < 2 ^ 64)%N ->
          Header_Get (Header r) "traceparent" = traceparent sc ->
          Parent inbound = Some {| TraceID := TraceID sc; SpanID := SpanID sc;
                                   Sampled := Sampled sc; Remote := true |}
          /\ TraceID (SC inbound) = TraceID sc)
    /\ (inner = []
        \/ exists outgoing, inner = [outgoing]
             /\ Name outgoing = "outgoing request to service-b").
Proof.
  destruct (gateway_span_shape r p)
    as (inner & inbound & He & Hn & Hp & Hsome & Hnone & Hi).
  exists inner, inbound. split; [exact He |]. split; [exact Hn |].
  split; [| split; [| exact Hi]].
  - intros H. apply Extract_absent in H. rewrite Hp. auto.
  - intros sc Hv Ht Hs H.
    pose proof (Extract_written _ sc Hv Ht Hs H) as Hx.
    rewrite Hp. split; [exact Hx |]. now rewrite (Hsome _ Hx).
Qed.

End GatewayCases.

(** ** The resolver, path by path *)

Section ResolverCases.
Import Go Structs Http Fastjson Otel ServiceB Variants.

Variable env : Env.

(** The two ways out of the lookup. *)
Lemma located_cases (zip : string) :
  match located env zip with
  | (location, None) =>
      location <> ""
      /\ exists res data,
           Do env (locationRequest zip) = inr res
           /\ RespBody res = Complete data
           /\ GetString data ["localidade"] = location
  | (location, Some e) =>
      location = ""
      /\ (http_NewRequest env "GET" (URL (locationRequest zip)) ∅ = None ->
          forall res data,
            Do env (locationRequest zip) = inr res ->
            RespBody res = Complete data ->
            e = "can not find zipcode" /\ GetString data ["localidade"] = "")
  end.
Proof.
  unfold located, getLocation. unfold_monad.
  destruct (http_NewRequest env _ _ _) as [e|] eqn:Hn; tidy;
    [split; [reflexivity | intros; congruence] |].
  destruct (Do env (locationRequest zip)) as [e|res] eqn:HDo; tidy;
    [split; [reflexivity | intros; congruence] |].
  destruct (RespBody res) as [e|data] eqn:Hb; cbn [ReadAll]; tidy;
    [split; [reflexivity | intros; congruence] |].
  destruct (String.eqb_spec (GetString data ["localidade"]) "") as [Hs|Hs]; tidy.
  - split; [reflexivity |]. intros _ res' data' H1 H2.
    assert (res' = res) by congruence. subst res'.
    assert (data' = data) by congruence. subst data'. auto.
  - split; [exact Hs | eauto].
Qed.

(** The two ways out of the fetch. *)
Lemma fetched_cases (location apiKey : string) :
  match fetched env location apiKey with
  | (w, None) =>
      (TempC w =? 0)%float = false /\ City w = ""
      /\ TempK w = (TempC w + 273)%float
  | (w, Some e) => w = Response_zero
  end.
Proof.
  unfold fetched, getTempFromAPI. unfold_monad.
  destruct (url_Parse env _); tidy; [reflexivity |].
  open_span. tidy.
  destruct (http_NewRequest env _ _ _); tidy; [reflexivity |].
  destruct (Do env _) as [e|res]; tidy; [reflexivity |].
  destruct (RespBody res) as [e|[e|v]]; cbn [ReadAll Parse]; tidy; try reflexivity.
  cbn [TempC]. destruct (_ =? 0)%float eqn:Hz; tidy; [reflexivity |].
  cbn [TempC City TempK]. auto.
Qed.

(** X11. The lookup never returns an empty city without an error: what
    it returns without one is the non-empty [localidade] string of the
    document the directory answered with; beside an error it returns
    the empty string, and when the directory did answer with a readable
    body the error is "can not find zipcode". *)
Theorem resolved_city_is_never_empty (ctx : Context) (zip : string) (p : Proc) :
  match fst (getLocation env ctx zip p) with
  | (location, None) =>
      location <> ""
      /\ exists res data,
           Do env (locationRequest zip) = inr res
           /\ RespBody res = Complete data
           /\ GetString data ["localidade"] = location
  | (location, Some e) =>
      location = ""
      /\ (http_NewRequest env "GET" (URL (locationRequest zip)) ∅ = None ->
          forall res data,
            Do env (locationRequest zip) = inr res ->
            RespBody res = Complete data ->
            e = "can not find zipcode" /\ GetString data ["localidade"] = "")
  end.
Proof. rewrite getLocation_run. cbn [fst]. apply located_cases. Qed.

(** X12. The fetch never returns a reading of 0 degrees Celsius: a
    reading returned without an error has a Celsius value that is not 0
    and no city yet; beside an error the fetch returns [Response{}]. *)
Theorem reading_is_never_zero (ctx : Context) (location apiKey : string) (p : Proc) :
  match fst (getTempFromAPI env ctx location apiKey p) with
  | (w, None) => (TempC w =? 0)%float = false /\ City w = ""
  | (w, Some e) => w = Response_zero
  end.
Proof.
  destruct (getTempFromAPI_run env ctx location apiKey p) as (id & spans & ->).
  cbn [fst]. pose proof (fetched_cases location apiKey) as H.
  destruct (fetched env location apiKey) as [w [e|]]; [exact H | tauto].
Qed.

(** X10. The resolver answers 405 exactly when the method is not [GET];
    it then answers "Method not allowed" and sends nothing. *)
Theorem resolver_405_iff_not_get (r : Request unit) (p : Proc) :
  (Status (fst (getTemp env r p)) = StatusMethodNotAllowed <-> Method r <> "GET")
  /\ (Method r <> "GET" ->
        fst (getTemp env r p) = http_Error "Method not allowed" StatusMethodNotAllowed
        /\ wire (snd (getTemp env r p)) = wire p).
Proof.
  pose proof (getTemp_run env r p) as H. cbv zeta in H.
  destruct (String.eqb_spec (Method r) "GET") as [Hm|Hm]; cbn [negb] in H.
  - split; [| contradiction]. split; [| contradiction].
    destruct (_ =? "") in H; [injection H as -> _; discriminate |].
    destruct (located env _) as [l [e|]]; [injection H as -> _; discriminate |].
    destruct (fetched env _ _) as [w [e|]]; injection H as -> _; discriminate.
  - injection H as -> ->. repeat split; auto.
Qed.

(** X14. A document the resolver writes is written with status 200 and
    has a non-empty city, a Celsius value that is not 0, the Kelvin
    value that is Celsius plus 273, and three finite numbers. *)
Theorem resolver_document (r : Request unit) (p : Proc) (res : Response) :
  Payload (fst (getTemp env r p)) = Document res ->
  Status (fst (getTemp env r p)) = StatusOK
  /\ City res <> ""
  /\ (TempC res =? 0)%float = false
  /\ TempK res = (TempC res + 273)%float
  /\ PrimFloat.is_finite (TempC res) = true
  /\ PrimFloat.is_finite (TempF res) = true
  /\ PrimFloat.is_finite (TempK res) = true.
Proof.
  pose proof (getTemp_run env r p) as H. cbv zeta in H.
  destruct (negb _) in H; [injection H as -> _; discriminate |].
  destruct (_ =? "") in H; [injection H as -> _; discriminate |].
  pose proof (located_cases (Values_Get (Query r) "zip")) as Hl.
  destruct (located env _) as [l [e|]]; [injection H as -> _; discriminate |].
  pose proof (fetched_cases l (Header_Get (Header r) "api_key")) as Hf.
  destruct (fetched env _ _) as [w [e|]]; injection H as -> _; [discriminate |].
  cbn [Payload Status]. unfold json_Encode. cbn [TempC TempF TempK].
  destruct (PrimFloat.is_finite (TempC w)) eqn:H1; [| discriminate].
  destruct (PrimFloat.is_finite (TempF w)) eqn:H2; [| discriminate].
  destruct (PrimFloat.is_finite (TempK w)) eqn:H3; [| discriminate].
  cbn [andb]. intros E. injection E as <-. cbn [City TempC TempF TempK].
  destruct Hl as [Hl _]. destruct Hf as (Hz & _ & Hk). auto 10.
Qed.


Lemma getLocation_restatus (f : Z -> Z) (ctx : Context) (zip : string) (p : Proc) :
  getLocation (restatus f env) ctx zip p = getLocation env ctx zip p.
Proof.
  unfold getLocation, restatus. unfold_monad. cbn [http_NewRequest Do].
  destruct (http_NewRequest env _ _ _); [reflexivity |].
  destruct (Do env _) as [e|res]; reflexivity.
Qed.

Lemma getTempFromAPI_restatus (f : Z -> Z) (ctx : Context) (location apiKey : string)
      (p : Proc) :
  getTempFromAPI (restatus f env) ctx location apiKey p
    = getTempFromAPI env ctx location apiKey p.
Proof.
  unfold getTempFromAPI, restatus. unfold_monad.
  cbn [url_Parse http_NewRequest Do].
  destruct (url_Parse env _); [reflexivity |].
  open_span.
  destruct (http_NewRequest env _ _ _); [reflexivity |].
  destruct (Do env _) as [e|res]; reflexivity.
Qed.

(** X13. The resolver never looks at the status the directory or the
    weather provider answer with: with every status replaced by any
    other, a request is handled the same way, to the same answer, the
    same requests sent and the same spans. *)
Theorem resolver_ignores_upstream_status (f : Z -> Z) (r : Request unit) (p : Proc) :
  getTemp (restatus f env) r p = getTemp env r p.
Proof.
  unfold getTemp. unfold_monad. open_span. tidy.
  destruct (negb _); [reflexivity |].
  destruct (_ =? ""); [reflexivity |].
  rewrite getLocation_restatus.
  destruct (getLocation env _ _ _) as [[location [e|]] q]; [reflexivity |].
  rewrite getTempFromAPI_restatus. reflexivity.
Qed.

Lemma getTempFromAPI_spans (ctx : Context) (location apiKey : string) (p : Proc) :
  exported (snd (getTempFromAPI env ctx location apiKey p)) = exported p
  \/ exists tid id,
       exported (snd (getTempFromAPI env ctx location apiKey p))
         = (exported p
              ++ [{| Name := "outgoing request to weatherapi";
                     SC := {| TraceID := tid; SpanID := id;
                              Sampled := true; Remote := false |};
                     Parent := ctx |}])%list
       /\ tid = match ctx with
                | Some psc => if IsValid psc then TraceID psc else N.succ (nextID p)
                | None => N.succ (nextID p)
                end.
Proof.
  unfold getTempFromAPI. unfold_monad.
  destruct (url_Parse env _); tidy; [now left |].
  open_span. right. exists tid, id.
  repeat (step; tidy); split; first [reflexivity | exact Htid].
Qed.

(** The spans of the resolver, with the parent of the request's span
    as the propagator hands it over. *)
Lemma resolver_span_shape (r : Request unit) (p : Proc) :
  exists inner served,
    exported (snd (getTemp env r p)) = (exported p ++ inner ++ [served])%list
    /\ Name served = "service-b"
    /\ Parent served = Extract Background (Header r)
    /\ (forall psc, Extract Background (Header r) = Some psc ->
          TraceID (SC served) = TraceID psc)
    /\ (Extract Background (Header r) = None ->
          TraceID (SC served) = N.succ (nextID p))
    /\ (inner = []
        \/ exists call, inner = [call]
             /\ Name call = "outgoing request to weatherapi"
             /\ Parent call = Some (SC served)
             /\ TraceID (SC call) = TraceID (SC served)).
Proof.
  unfold getTemp. unfold_monad. open_span.
  assert (Hsome : forall psc, Extract Background (Header r) = Some psc -> tid = TraceID psc).
  { intros psc Hx. destruct (Extract_valid _ _ Hx) as [Hv _].
    now rewrite Hx, Hv in Htid. }
  assert (Hnone : Extract Background (Header r) = None -> tid = N.succ (nextID p)).
  { intros Hx. now rewrite Hx in Htid. }
  assert (Hvalid : IsValid {| TraceID := tid; SpanID := id; Sampled := true;
                              Remote := false |} = true).
  { unfold IsValid. cbn [TraceID SpanID].
    apply andb_true_intro; split; apply negb_true_iff, N.eqb_neq; [| lia].
    destruct (Extract Background (Header r)) as [psc|] eqn:Hx.
    - destruct (Extract_valid _ _ Hx) as [Hv _]. rewrite (Hsome psc eq_refl).
      unfold IsValid in Hv. apply andb_prop in Hv. destruct Hv as [Hv _].
      now apply negb_true_iff, N.eqb_neq in Hv.
    - rewrite (Hnone eq_refl). lia. }
  clear Htid. tidy.
  destruct (negb _); tidy;
    [exists []; eexists; split; [reflexivity |]; cbn [Name Parent SC TraceID]; auto 10 |].
  destruct (_ =? ""); tidy;
    [exists []; eexists; split; [reflexivity |]; cbn [Name Parent SC TraceID]; auto 10 |].
  rewrite getLocation_run.
  destruct (located env _) as [location [e|]]; tidy;
    [exists []; eexists; split; [reflexivity |]; cbn [Name Parent SC TraceID]; auto 10 |].
  match goal with
  | |- context [getTempFromAPI env ?c ?l ?k ?q] =>
      pose proof (getTempFromAPI_spans c l k q) as Hs;
      destruct (getTempFromAPI env c l k q) as [[res oe] q'] eqn:Hq
  end.
  tidy. rewrite Hvalid in Hs. cbn [TraceID] in Hs.
  destruct Hs as [Hs | (tid' & id' & Hs & Ht')].
  - destruct oe; tidy; rewrite Hs;
      exists []; eexists; (split; [reflexivity |]);
      cbn [Name Parent SC TraceID]; auto 10.
  - destruct oe; tidy; rewrite Hs, <- app_assoc;
      eexists [_]; eexists; (split; [reflexivity |]);
      cbn [Name Parent SC TraceID]; repeat split; auto;
      right; eexists; repeat split; exact Ht'.
Qed.

(** X15. On every path the resolver ends the span of the request exactly
    once and last.  When the request has no [traceparent] header that
    span has no parent and opens a trace; when the header is the one
    written for a valid span context, that context (marked remote) is
    its parent and the span has its trace id.  The span of the weather
    call, when there is one, is ended before it and is its child in the
    same trace. *)
Theorem resolver_spans_nest (r : Request unit) (p : Proc) :
  exists inner served,
    exported (snd (getTemp env r p)) = (exported p ++ inner ++ [served])%list
    /\ Name served = "service-b"
    /\ (Header_Get (Header r) "traceparent" = "" ->
          Parent served = None /\ TraceID (SC served) = N.succ (nextID p))
    /\ (forall sc,
          IsValid sc = true -> (TraceID sc < 2 ^ 128)%N -> (SpanID sc < 2 ^ 64)%N ->
          Header_Get (Header r) "traceparent" = traceparent sc ->
          Parent served = Some {| TraceID := TraceID sc; SpanID := SpanID sc;
                                  Sampled := Sampled sc; Remote := true |}
          /\ TraceID (SC served) = TraceID sc)
    /\ (inner = []
        \/ exists call, inner = [call]
             /\ Name call = "outgoing request to weatherapi"
             /\ Parent call = Some (SC served)
             /\ TraceID (SC call) = TraceID (SC served)).
Proof.
  destruct (resolver_span_shape r p)
    as (inner & served & He & Hn & Hp & Hsome & Hnone & Hi).
  exists inner, served. split; [exact He |]. split; [exact Hn |].
  split; [| split; [| exact Hi]].
  - intros H. apply Extract_absent in H. rewrite Hp. auto.
  - intros sc Hv Ht Hs H.
    pose proof (Extract_written _ sc Hv Ht Hs H) as Hx.
    rewrite Hp. split; [exact Hx |]. now rewrite (Hsome _ Hx).
Qed.

Lemma resolver_sent_cases (r : Request unit) (p : Proc) :
  let zip := Values_Get (Query r) "zip" in
  exists sent,
    wire (snd (getTemp env r p)) = (wire p ++ sent)%list
    /\ (sent = [] \/ sent = [locationRequest zip]
        \/ exists l k, sent = [locationRequest zip; weatherRequest l k]).
Proof.
  intros zip.
  pose proof (getTemp_run env r p) as H. cbv zeta in H. fold zip in H.
  destruct (negb _) in H.
  { injection H as _ ->. exists []. rewrite app_nil_r. auto. }
  destruct (_ =? "") in H.
  { injection H as _ ->. exists []. rewrite app_nil_r. auto. }
  destruct (located env zip) as [location [e|]] eqn:Hloc.
  - injection H as _ ->. eexists. split; [reflexivity |].
    destruct (locationSent_cases env zip) as [[-> _]| ->]; auto.
  - rewrite (located_ok_sent env _ _ Hloc) in H.
    assert (Hw : exists sent,
               ([locationRequest zip]
                  ++ weatherSent env location (Header_Get (Header r) "api_key"))%list = sent
               /\ (sent = [locationRequest zip]
                   \/ exists l k, sent = [locationRequest zip; weatherRequest l k])).
    { destruct (weatherSent_cases env location (Header_Get (Header r) "api_key"))
        as [[-> _]| ->]; eexists; (split; [reflexivity |]); cbn [app]; eauto. }
    destruct Hw as (sent & Hs & Hc). rewrite Hs in H.
    destruct (fetched env location _) as [w [e|]]; injection H as _ ->;
      exists sent; (split; [reflexivity |]); tauto.
Qed.

(** X17. What the resolver sends upstream: at most two requests, each a
    [GET] on which the program sets no header, so neither the key nor
    the trace context travels in a header; the first is the request to
    the directory, whose address is the fixed text with the raw [zip]
    pasted in, whatever the key is. *)
Theorem resolver_sends_bare_requests (r : Request unit) (p : Proc) :
  let zip := Values_Get (Query r) "zip" in
  exists sent,
    wire (snd (getTemp env r p)) = (wire p ++ sent)%list
    /\ (length sent <= 2)%nat
    /\ (forall req, In req sent -> Method req = "GET" /\ Header req = ∅)
    /\ (forall req, head sent = Some req ->
          URL req = "http://viacep.com.br/ws/" ++ zip ++ "/json/").
Proof.
  intros zip. destruct (resolver_sent_cases r p) as (sent & Hw & Hc).
  exists sent. split; [exact Hw |]. fold zip in Hc.
  destruct Hc as [-> | [-> | (l & k & ->)]]; cbn [length In head].
  - split; [lia |]. split; [now intros ? [] | discriminate].
  - split; [lia |]. split; [intros req [<- | []]; auto |].
    intros req E. injection E as <-. reflexivity.
  - split; [lia |]. split; [intros req [<- | [<- | []]]; auto |].
    intros req E. injection E as <-. reflexivity.
Qed.

End ResolverCases.

(** ** From the gateway to the resolver *)

Section Hop.
Import Go Structs Http Otel.

(** X16. Whatever the two worlds: the request the gateway forwards is
    served by the resolver in the trace of the gateway's outgoing span,
    as a child of that span; and that outgoing span has no parent. *)
Theorem resolver_joins_the_forwarded_trace (envA : ServiceA.Env) (envB : ServiceB.Env)
        (r : Request (CEP * option error)) (pA pB : Proc) (fwd : Request unit) :
  (nextID pA + 4 < 2 ^ 64)%N ->
  wire (snd (ServiceA.getTempFromZip envA r pA)) = (wire pA ++ [fwd])%list ->
  exists inbound outgoing inner served,
    exported (snd (ServiceA.getTempFromZip envA r pA))
      = (exported pA ++ [outgoing; inbound])%list
    /\ exported (snd (ServiceB.getTemp envB fwd pB))
       = (exported pB ++ inner ++ [served])%list
    /\ Name outgoing = "outgoing request to service-b"
    /\ Name served = "service-b"
    /\ Parent outgoing = None
    /\ Parent served
       = Some {| TraceID := TraceID (SC outgoing); SpanID := SpanID (SC outgoing);
                 Sampled := true; Remote := true |}
    /\ TraceID (SC served) = TraceID (SC outgoing).
Proof.
  intros Hp Hw.
  destruct (forwarded_context_is_a_root envA r pA fwd Hp Hw)
    as (inbound & outgoing & Ha & _ & Hn & Hroot & Hx & _).
  destruct (resolver_span_parent envB fwd pB _ Hx) as (inner & sc & Hb & Ht).
  exists inbound, outgoing, inner. eexists.
  split; [exact Ha |]. split; [exact Hb |].
  cbn [Name Parent SC]. repeat split; auto.
Qed.

End Hop.

(** ** The further properties in concrete worlds *)

Section MoreRuns.
Import Go Structs Http Fastjson Otel Scenario Variants.

(** X1 on two spellings of one postal code. *)
Lemma validateZip_same_digits_witness :
  ServiceA.validateZip "01001-000" = ServiceA.validateZip " 01.001.000 ".
Proof. apply validateZip_same_digits. reflexivity. Defined.

(** X2 on a postal code written with a dash. *)
Lemma validateZip_idempotent_witness :
  ServiceA.validateZip "01001000" = ("01001000", None)
  /\ len "01001000" = 8%nat /\ allDigits "01001000" = true.
Proof. apply (validateZip_idempotent "01001-000"). reflexivity. Defined.

(** X4 on a body that ends too early, with a key and without. *)
Lemma undecodable_body_is_400_witness :
  (fst (ServiceA.getTempFromZip peerDown (truncated "k") p0)
     = http_Error "unexpected EOF" 400
   /\ wire (snd (ServiceA.getTempFromZip peerDown (truncated "k") p0)) = [])
  /\ (fst (ServiceA.getTempFromZip peerDown (truncated "") p0)
        = http_Error "unexpected EOF" 400
      /\ wire (snd (ServiceA.getTempFromZip peerDown (truncated "") p0)) = []).
Proof.
  split.
  - apply (undecodable_body_is_400 peerDown (truncated "k") p0); reflexivity.
  - apply (undecodable_body_is_400 peerDown (truncated "") p0); reflexivity.
Defined.

(** X7 when the peer is down, and when it answers 400. *)
Lemma gateway_answer_follows_peer_witness :
  fst (ServiceA.getTempFromZip peerDown (post "01001-000" "k") p0)
    = http_Error "dial tcp: connection refused" 400
  /\ fst (ServiceA.getTempFromZip (peerAnswers reply400) (post "01001-000" "k") p0)
     = {| Status := 200; ContentType := "application/json";
          Payload := Document Response_zero |}.
Proof.
  split.
  - rewrite (gateway_answer_follows_peer peerDown (post "01001-000" "k") p0
               (forwarded "01001000" "k" 3 4)); [reflexivity |].
    vm_compute. reflexivity.
  - rewrite (gateway_answer_follows_peer (peerAnswers reply400) (post "01001-000" "k") p0
               (forwarded "01001000" "k" 3 4)); [reflexivity |].
    vm_compute. reflexivity.
Defined.

(** X6 on a postal code written with a dash: the digits are forwarded. *)
Example dashed_zip_is_forwarded_stripped :
  wire (snd (ServiceA.getTempFromZip peerDown (post "01001-000" "k") p0))
    = [forwarded "01001000" "k" 3 4].
Proof. vm_compute. reflexivity. Qed.

(** X13 on a directory and a provider that answer 500 with their usual
    bodies. *)
Example status_500_changes_nothing :
  fst (ServiceB.getTemp (restatus (fun _ => 500%Z) (world saoPaulo warm))
         (get "01001000" "k") p0)
  = {| Status := 200; ContentType := "application/json";
       Payload := Document {| City := "Sao Paulo"; TempC := 25;
                              TempF := 77; TempK := 298 |} |}.
Proof. vm_compute. reflexivity. Qed.

(** X14 on a known postal code. *)
Lemma resolver_document_witness :
  Status (fst (ServiceB.getTemp (world saoPaulo warm) (get "01001000" "k") p0)) = StatusOK
  /\ "Sao Paulo" <> ""
  /\ (25 =? 0)%float = false
  /\ 298%float = (25 + 273)%float
  /\ PrimFloat.is_finite 25 = true
  /\ PrimFloat.is_finite 77 = true
  /\ PrimFloat.is_finite 298 = true.
Proof.
  apply (resolver_document (world saoPaulo warm) (get "01001000" "k") p0
           {| City := "Sao Paulo"; TempC := 25; TempF := 77; TempK := 298 |}).
  vm_compute. reflexivity.
Defined.

(** X16 on the request of a client that sent no trace context. *)
Lemma resolver_joins_the_forwarded_trace_witness :
  exists inbound outgoing inner served,
    exported (snd (ServiceA.getTempFromZip (resolverBehind (world saoPaulo warm))
                     (post "01001000" "k") p0))
      = ([] ++ [outgoing; inbound])%list
    /\ exported (snd (ServiceB.getTemp (world saoPaulo warm)
                        (forwarded "01001000" "k" 3 4) resolverProc))
       = ([] ++ inner ++ [served])%list
    /\ Name outgoing = "outgoing request to service-b"
    /\ Name served = "service-b"
    /\ Parent outgoing = None
    /\ Parent served
       = Some {| TraceID := TraceID (SC outgoing); SpanID := SpanID (SC outgoing);
                 Sampled := true; Remote := true |}
    /\ TraceID (SC served) = TraceID (SC outgoing).
Proof.
  apply (resolver_joins_the_forwarded_trace (resolverBehind (world saoPaulo warm))
           (world saoPaulo warm) (post "01001000" "k") p0 resolverProc
           (forwarded "01001000" "k" 3 4)).
  - vm_compute. reflexivity.
  - vm_compute. reflexivity.
Defined.

(** X9 on the request of a client that sent its trace context. *)
Lemma gateway_span_is_always_ended_witness :
  exists inner inbound,
    exported (snd (ServiceA.getTempFromZip (resolverBehind (world saoPaulo warm))
                     (traced "01001000" "k" 3 4) p0))
      = ([] ++ inner ++ [inbound])%list
    /\ Name inbound = "service-a"
    /\ Parent inbound
       = Some {| TraceID := 3; SpanID := 4; Sampled := true; Remote := true |}
    /\ TraceID (SC inbound) = 3%N.
Proof.
  destruct (gateway_span_is_always_ended (resolverBehind (world saoPaulo warm))
              (traced "01001000" "k" 3 4) p0)
    as (inner & inbound & He & Hn & _ & Hw & _).
  exists inner, inbound. split; [exact He |]. split; [exact Hn |].
  apply (Hw (mkSpanContext 3 4 true false)); vm_compute; reflexivity.
Defined.

(** X15 on the request the gateway forwards. *)
Lemma resolver_spans_nest_witness :
  exists inner served,
    exported (snd (ServiceB.getTemp (world saoPaulo warm)
                     (forwarded "01001000" "k" 3 4) resolverProc))
      = ([] ++ inner ++ [served])%list
    /\ Name served = "service-b"
    /\ Parent served
       = Some {| TraceID := 3; SpanID := 4; Sampled := true; Remote := true |}
    /\ TraceID (SC served) = 3%N
    /\ (inner = []
        \/ exists call, inner = [call]
             /\ Name call = "outgoing request to weatherapi"
             /\ Parent call = Some (SC served)
             /\ TraceID (SC call) = TraceID (SC served)).
Proof.
  destruct (resolver_spans_nest (world saoPaulo warm)
              (forwarded "01001000" "k" 3 4) resolverProc)
    as (inner & served & He & Hn & _ & Hw & Hi).
  exists inner, served. split; [exact He |]. split; [exact Hn |].
  destruct (Hw (mkSpanContext 3 4 true false)) as [Hp Ht];
    [vm_compute; reflexivity .. |].
  split; [exact Hp |]. split; [exact Ht | exact Hi].
Defined.

End MoreRuns.
